(** * fetch_and_store.py: the schema-tolerant extraction layer

    A shallow embedding of [_get_first_available], [parse_locations],
    [insert_rows] and [parse_precipitation] of [src/fetch_and_store.py],
    with the properties of the extraction layer stated over it.

    Conventions of the embedding.
    - A decoded JSON document is a [json] value.  Python's [None] is [JNull];
      a [dict] is an association list in insertion order (keys of a decoded
      document are distinct, lookup takes the first binding).
    - A Python [str] is a [string] holding its UTF-8 bytes.  The only
      operations the program applies to the characters of a string are
      [.lower()] followed by containment tests against ASCII keywords, and
      iteration of a string by a [for] whose body skips every character.
    - An exception is a value of [exn]; code that may raise returns
      [result].  The per-record bodies, which append to the output list and
      read the clock, live in a state-and-exception monad [M].
    - The float arithmetic of the interpreter ([float()], truth value and
      [repr] of a float) is an interface, [PyFloat]; every theorem holds for
      every implementation of it. *)

From Stdlib Require Import List String Ascii ZArith Bool.
Import ListNotations.
Local Open Scope list_scope.
Local Open Scope string_scope.
Set Warnings "-register-all".

(** ** Exceptions *)

Inductive exn : Type :=
| TypeError
| AttributeError
| KeyError
| ValueError
| OverflowError.

Inductive result (A : Type) : Type :=
| Ok (a : A)
| Raise (e : exn).
Arguments Ok {A} a.
Arguments Raise {A} e.

Definition rbind {A B : Type} (r : result A) (k : A -> result B) : result B :=
  match r with
  | Ok a => k a
  | Raise e => Raise e
  end.

Definition is_raise {A : Type} (r : result A) : bool :=
  match r with
  | Ok _ => false
  | Raise _ => true
  end.

Declare Scope result_scope.
Delimit Scope result_scope with result.
Notation "x <- r ;; k" := (rbind r (fun x => k))
  (at level 61, r at next level, right associativity) : result_scope.
Local Open Scope result_scope.

(** [try: r except Exception: handler] *)
Definition try_except {A : Type} (r : result A) (handler : A) : A :=
  match r with
  | Ok a => a
  | Raise _ => handler
  end.

(** The list comprehension [[f(x) for x in l]]: the first exception ends it. *)
Fixpoint comprehension {A B : Type} (f : A -> result B) (l : list A) : result (list B) :=
  match l with
  | [] => Ok []
  | x :: rest =>
      y <- f x ;;
      ys <- comprehension f rest ;;
      Ok (y :: ys)
  end.

(** ** Output and clock: the state the extractors thread *)

Record world (R : Type) : Type := {
  out : list R;     (* the list [rows] / [out] being built *)
  ticks : nat       (* how many times the clock has been read *)
}.
Arguments out {R} w.
Arguments ticks {R} w.

Definition M (R A : Type) : Type := world R -> result A * world R.

Definition ret {R A : Type} (a : A) : M R A := fun w => (Ok a, w).

Definition bind {R A B : Type} (c : M R A) (k : A -> M R B) : M R B :=
  fun w =>
    match c w with
    | (Ok a, w') => k a w'
    | (Raise e, w') => (Raise e, w')
    end.

Definition lift {R A : Type} (r : result A) : M R A := fun w => (r, w).

(** [rows.append(r)] *)
Definition append {R : Type} (r : R) : M R unit :=
  fun w => (Ok tt, {| out := (out w ++ [r])%list; ticks := ticks w |}).

Notation "x <~ c ;; k" := (bind c (fun x => k))
  (at level 61, c at next level, right associativity) : result_scope.

(** A computation that appends nothing. *)
Definition keeps_out {R A : Type} (c : M R A) : Prop :=
  forall w, out (snd (c w)) = out w.

(** [for x in l: try: body(x) except Exception: continue].  An exception
    ends the iteration of [x] and keeps what the body did before it. *)
Fixpoint for_each_try {R A : Type} (body : A -> M R unit) (l : list A) : M R unit :=
  fun w =>
    match l with
    | [] => (Ok tt, w)
    | x :: rest => for_each_try body rest (snd (body x w))
    end.

(** A [for] loop without a handler: an exception of the body leaves the loop. *)
Fixpoint for_each {R A : Type} (body : A -> M R unit) (l : list A) : M R unit :=
  match l with
  | [] => ret tt
  | x :: rest => _ <~ body x ;; for_each body rest
  end.

(** ** Strings *)

(** [needle in hay] for two [str]. *)
Fixpoint contains (needle hay : string) : bool :=
  String.prefix needle hay
  || match hay with
     | EmptyString => false
     | String _ rest => contains needle rest
     end.

Definition lower_ascii (c : ascii) : ascii :=
  let n := nat_of_ascii c in
  if (65 <=? n)%nat && (n <=? 90)%nat then ascii_of_nat (n + 32) else c.

(** [s.lower()]: exact on ASCII; bytes of other code points are kept.  No
    keyword of the classifier can be completed by a letter that Unicode
    lowercasing produces from a non-ASCII code point. *)
Fixpoint lower (s : string) : string :=
  match s with
  | EmptyString => EmptyString
  | String c rest => String (lower_ascii c) (lower rest)
  end.

(** [any(k in lname for k in keys)] *)
Definition any_in (keys : list string) (lname : string) : bool :=
  existsb (fun k => contains k lname) keys.

Definition nonempty (s : string) : bool :=
  match s with
  | EmptyString => false
  | String _ _ => true
  end.

(** Decimal rendering of a natural number, zero-padded to [width]. *)
Fixpoint digits_fuel (fuel n : nat) (acc : string) : string :=
  match fuel with
  | O => acc
  | S fuel' =>
      let acc' := String (ascii_of_nat (48 + n mod 10)) acc in
      if (n <? 10)%nat then acc' else digits_fuel fuel' (n / 10) acc'
  end.

Definition string_of_nat (n : nat) : string := digits_fuel (S n) n EmptyString.

Fixpoint zeros (k : nat) : string :=
  match k with
  | O => EmptyString
  | S k' => String "0" (zeros k')
  end.

Definition pad (width n : nat) : string :=
  let s := string_of_nat n in
  zeros (width - String.length s) ++ s.

Definition string_of_Z (z : Z) : string :=
  match z with
  | Zneg p => String "-" (string_of_nat (Pos.to_nat p))
  | _ => string_of_nat (Z.to_nat z)
  end.

(** ** The clock *)

Record datetime : Type := {
  year : nat; month : nat; day : nat;
  hour : nat; minute : nat; second : nat; microsecond : nat
}.

(** [dt.isoformat()] *)
Definition isoformat (dt : datetime) : string :=
  pad 4 (year dt) ++ "-" ++ pad 2 (month dt) ++ "-" ++ pad 2 (day dt)
  ++ "T" ++ pad 2 (hour dt) ++ ":" ++ pad 2 (minute dt) ++ ":" ++ pad 2 (second dt)
  ++ (if (microsecond dt =? 0)%nat then EmptyString else "." ++ pad 6 (microsecond dt)).

(** ** Floats of the interpreter *)

Class PyFloat : Type := {
  pyfloat : Type;
  (** [x == 0.0] *)
  float_is_zero : pyfloat -> bool;
  (** [repr(x)] *)
  float_repr : pyfloat -> string;
  float_repr_nonempty : forall x, float_repr x <> EmptyString;
  (** [float(s)] for a [str]; [None] stands for [ValueError] *)
  float_of_string : string -> option pyfloat;
  (** [float(n)] for an [int]; [None] stands for [OverflowError] *)
  float_of_int : Z -> option pyfloat
}.

Section Extraction.

Context {PF : PyFloat}.

(** ** Decoded JSON values *)

Inductive json : Type :=
| JNull
| JBool (b : bool)
| JInt (z : Z)
| JFloat (f : pyfloat)
| JStr (s : string)
| JList (l : list json)
| JDict (d : list (string * json)).

Definition dict : Type := list (string * json).

(** [d[k]] when [k in d] *)
Fixpoint lookup (d : dict) (k : string) : option json :=
  match d with
  | [] => None
  | (k', v) :: rest => if String.eqb k' k then Some v else lookup rest k
  end.

(** [k in d] *)
Definition has_key (d : dict) (k : string) : bool :=
  match lookup d k with
  | Some _ => true
  | None => false
  end.

(** [d.get(k, default)] *)
Definition get_default (d : dict) (k : string) (default : json) : json :=
  match lookup d k with
  | Some v => v
  | None => default
  end.

(** [d.get(k)] *)
Definition get (d : dict) (k : string) : json := get_default d k JNull.

(** Truth value of a decoded value. *)
Definition truthy (v : json) : bool :=
  match v with
  | JNull => false
  | JBool b => b
  | JInt z => negb (z =? 0)%Z
  | JFloat f => negb (float_is_zero f)
  | JStr s => nonempty s
  | JList l => match l with [] => false | _ :: _ => true end
  | JDict d => match d with [] => false | _ :: _ => true end
  end.

(** [a or b] *)
Definition py_or (a b : json) : json := if truthy a then a else b.

(** [v in (None, str())], the test against [None] and the empty string *)
Definition none_or_empty (v : json) : bool :=
  match v with
  | JNull => true
  | JStr s => negb (nonempty s)
  | _ => false
  end.

(** [v is None] *)
Definition is_none (v : json) : bool :=
  match v with
  | JNull => true
  | _ => false
  end.

Definition is_dict (v : json) : bool :=
  match v with
  | JDict _ => true
  | _ => false
  end.

(** [repr] of a [str]: the escapes of the ASCII range; the bytes of other
    code points are copied. *)
Definition hex_digit (n : nat) : ascii :=
  ascii_of_nat (if (n <? 10)%nat then 48 + n else 87 + n).

Fixpoint repr_chars (quote : ascii) (s : string) : string :=
  match s with
  | EmptyString => EmptyString
  | String c rest =>
      let n := nat_of_ascii c in
      let tail := repr_chars quote rest in
      if Ascii.eqb c quote || Ascii.eqb c "\" then String "\" (String c tail)
      else if (n =? 9)%nat then "\t" ++ tail
      else if (n =? 10)%nat then "\n" ++ tail
      else if (n =? 13)%nat then "\r" ++ tail
      else if (n <? 32)%nat || (n =? 127)%nat
           then "\x" ++ String (hex_digit (n / 16)) (String (hex_digit (n mod 16)) tail)
      else String c tail
  end.

Definition dquote : ascii := ascii_of_nat 34.

Definition repr_str (s : string) : string :=
  let quote : ascii :=
    if contains "'" s && negb (contains (String dquote EmptyString) s)
    then dquote else "'"%char in
  String quote (repr_chars quote s ++ String quote EmptyString).

(** [repr(v)] *)
Fixpoint py_repr (v : json) : string :=
  match v with
  | JNull => "None"
  | JBool true => "True"
  | JBool false => "False"
  | JInt z => string_of_Z z
  | JFloat f => float_repr f
  | JStr s => repr_str s
  | JList l =>
      "[" ++ (fix items (first : bool) (l : list json) : string :=
                match l with
                | [] => EmptyString
                | x :: rest =>
                    (if first then EmptyString else ", ") ++ py_repr x ++ items false rest
                end) true l ++ "]"
  | JDict d =>
      "{" ++ (fix items (first : bool) (d : list (string * json)) : string :=
                match d with
                | [] => EmptyString
                | (k, x) :: rest =>
                    (if first then EmptyString else ", ")
                    ++ repr_str k ++ ": " ++ py_repr x ++ items false rest
                end) true d ++ "}"
  end.

(** [str(v)] *)
Definition py_str (v : json) : string :=
  match v with
  | JStr s => s
  | _ => py_repr v
  end.

(** ** Operations of the interpreter on decoded values *)

(** [k in obj] for a [str] key [k] *)
Definition py_in (k : string) (obj : json) : result bool :=
  match obj with
  | JDict d => Ok (has_key d k)
  | JStr s => Ok (contains k s)
  | JList l =>
      Ok (existsb (fun x => match x with JStr s => String.eqb s k | _ => false end) l)
  | _ => Raise TypeError
  end.

(** [obj[k]] for a [str] key [k] *)
Definition py_getitem (obj : json) (k : string) : result json :=
  match obj with
  | JDict d =>
      match lookup d k with
      | Some v => Ok v
      | None => Raise KeyError
      end
  | _ => Raise TypeError
  end.

(** [obj.get(k, default)]: only a [dict] has the method *)
Definition py_get (obj : json) (k : string) (default : json) : result json :=
  match obj with
  | JDict d => Ok (get_default d k default)
  | _ => Raise AttributeError
  end.

(** [v.lower()]: only a [str] has the method *)
Definition py_lower (v : json) : result string :=
  match v with
  | JStr s => Ok (lower s)
  | _ => Raise AttributeError
  end.

(** [float(v)] *)
Definition py_float (v : json) : result pyfloat :=
  match v with
  | JFloat f => Ok f
  | JInt z =>
      match float_of_int z with
      | Some f => Ok f
      | None => Raise OverflowError
      end
  | JBool b =>
      match float_of_int (if b then 1 else 0) with
      | Some f => Ok f
      | None => Raise OverflowError
      end
  | JStr s =>
      match float_of_string s with
      | Some f => Ok f
      | None => Raise ValueError
      end
  | _ => Raise TypeError
  end.

(** [iter(v)], as the [for] statement takes it: the items of a list, the
    characters of a string, the keys of a dict. *)
Definition py_iter (v : json) : result (list json) :=
  match v with
  | JList l => Ok l
  | JStr s => Ok (map (fun c => JStr (String c EmptyString)) (list_ascii_of_string s))
  | JDict d => Ok (map (fun kv => JStr (fst kv)) d)
  | _ => Raise TypeError
  end.

(** ** [_get_first_available] (lines 37-41) *)

Fixpoint _get_first_available (obj : json) (keys : list string) : result json :=
  match keys with
  | [] => Ok JNull
  | k :: rest =>
      present <- py_in k obj ;;
      if present then
        v <- py_getitem obj k ;;
        if none_or_empty v then _get_first_available obj rest else Ok v
      else _get_first_available obj rest
  end.

(** ** [_get_station_list] (lines 52-62, and the same text at 260-270) *)

Definition _get_station_list (d : json) : option (list json) :=
  match d with
  | JDict top =>
      match lookup top "cwaopendata" with
      | Some (JDict c) =>
          match get c "dataset" with
          | JDict ds =>
              match get ds "Station" with
              | JList st => Some st
              | _ => None
              end
          | _ => None
          end
      | _ => None
      end
  | _ => None
  end.

(** [if stations:] *)
Definition nonempty_list (stations : option (list json)) : option (list json) :=
  match stations with
  | Some (_ :: _) => stations
  | _ => None
  end.

(** ** Locating the record list in [parse_locations] (lines 64-88) *)

(** Lines 72-77; [locations] is [None] before them. *)
Definition records_obs (data : dict) : json :=
  match lookup data "records" with
  | Some (JDict rec) =>
      match lookup rec "location" with
      | Some v => v
      | None => JNull
      end
  | Some (JList rec) => JList rec
  | _ => JNull
  end.

(** Lines 78-86. *)
Definition top_level_obs (data : dict) (locations : json) : result json :=
  if is_none locations then
    match lookup data "location", lookup data "locations", lookup data "features" with
    | Some (JList l), _, _ => Ok (JList l)
    | _, Some (JList l), _ => Ok (JList l)
    | _, _, Some (JList features) =>
        props <- comprehension (fun f => py_get f "properties" (JDict [])) features ;;
        Ok (JList props)
    | _, _, _ => Ok locations
    end
  else Ok locations.

Definition locations_obs (data : json) : result json :=
  match nonempty_list (_get_station_list data) with
  | Some stations => Ok (JList stations)
  | None =>
      match data with
      | JDict top => top_level_obs top (records_obs top)
      | JList _ => Ok data
      | _ => Ok JNull
      end
  end.

(** Lines 90-97: the fallback on a falsy candidate, then [iter(locations)]. *)
Definition located_obs (data : json) : result (list json) :=
  locations <- locations_obs data ;;
  if truthy locations then py_iter locations
  else if is_dict data then Ok [data]
  else Ok [].

(** ** Locating the record list in [parse_precipitation] (lines 272-292) *)

(** Lines 278-283; [locations] is what lines 273-276 left. *)
Definition records_precip (data : dict) (locations : json) : json :=
  match lookup data "records" with
  | Some (JDict rec) =>
      match lookup rec "location" with
      | Some v => v
      | None => locations
      end
  | Some (JList rec) => JList rec
  | _ => locations
  end.

(** Lines 284-290. *)
Definition top_level_precip (data : dict) (locations : json) : result json :=
  if is_none locations then
    match lookup data "location", lookup data "locations", lookup data "features" with
    | Some (JList l), _, _ => Ok (JList l)
    | _, Some (JList l), _ => Ok (JList l)
    | _, _, Some (JList features) =>
        props <- comprehension (fun f => py_get f "properties" (JDict [])) features ;;
        Ok (JList props)
    | _, _, _ => Ok locations
    end
  else Ok locations.

Definition locations_precip (data : json) : result json :=
  let locations :=
    match nonempty_list (_get_station_list data) with
    | Some stations => JList stations
    | None => JNull
    end in
  match data with
  | JDict top => top_level_precip top (records_precip top locations)
  | JList _ => Ok data
  | _ => Ok locations
  end.

(** Lines 294-297: no fallback, then [iter(locations)]. *)
Definition located_precip (data : json) : result (list json) :=
  locations <- locations_precip data ;;
  if truthy locations then py_iter locations else Ok [].

(** ** The per-record code shared by both extractors *)

Variable clock : nat -> datetime.

(** [datetime.utcnow()] *)
Definition utcnow {R : Type} : M R datetime :=
  fun w => (Ok (clock (ticks w)), {| out := out w; ticks := S (ticks w) |}).

(** Lines 103-107, and the same text at 302-306. *)
Definition location_name_of (loc : dict) : result json :=
  let location_name :=
    if has_key loc "StationName" then get loc "StationName" else JNull in
  if truthy location_name then Ok location_name
  else
    x <- _get_first_available (JDict loc)
           ["locationName"; "location"; "name"; "area"; "county"; "city"] ;;
    Ok (py_or x (JStr "Unknown")).

(** Lines 112-114 and 312-314: the first entry of the record's [time] list. *)
Definition date_of_time_list (loc : dict) (date_val : json) : result json :=
  match lookup loc "time" with
  | Some (JList (first_time :: _)) =>
      x <- _get_first_available first_time ["startTime"; "dataTime"; "time"] ;;
      Ok (py_or x date_val)
  | _ => Ok date_val
  end.

(** Lines 124-129 and 316-321: the loop over [weatherElement], left by
    [break] at the first entry that gives a date. *)
Fixpoint date_of_elements (es : list json) (date_val : json) : result json :=
  match es with
  | [] => Ok date_val
  | e :: rest =>
      match e with
      | JDict ed =>
          match lookup ed "time" with
          | Some (JList (t0 :: _)) =>
              x <- _get_first_available t0 ["startTime"; "dataTime"] ;;
              let date_val := py_or x date_val in
              if truthy date_val then Ok date_val
              else date_of_elements rest date_val
          | _ => date_of_elements rest date_val
          end
      | _ => date_of_elements rest date_val
      end
  end.

(** Lines 123 and 315: the guard of that loop. *)
Definition date_of_weather_elements (loc : dict) (date_val : json) : result json :=
  if truthy date_val then Ok date_val
  else
    match lookup loc "weatherElement" with
    | Some (JList es) => date_of_elements es date_val
    | _ => Ok date_val
    end.

(** Lines 132 and 322: direct keys, then the clock. *)
Definition date_fallback {R : Type} (loc : dict) (date_val : json) : M R json :=
  if truthy date_val then ret date_val
  else
    x <~ lift (_get_first_available (JDict loc) ["date"; "forecastDate"; "dataTime"]) ;;
    if truthy x then ret x
    else
      now <~ utcnow ;;
      ret (JStr (isoformat now)).

(** ** [parse_locations]: one station record (lines 99-192) *)

Record obs_row : Type := {
  location : string;
  date : string;
  min_temp : option string;
  max_temp : option string;
  description : option string
}.

(** Lines 110-132. *)
Definition obs_date (loc : dict) : M obs_row json :=
  date_val <~ lift (date_of_time_list loc JNull) ;;
  let date_val :=
    if negb (truthy date_val) then
      match lookup loc "ObsTime" with
      | Some (JDict obs_time) =>
          let dt := get obs_time "DateTime" in
          if truthy dt then dt else date_val
      | _ => date_val
      end
    else date_val in
  date_val <~ lift (date_of_weather_elements loc date_val) ;;
  date_fallback loc date_val.

(** Line 143. *)
Definition element_name (element : dict) : json :=
  py_or (py_or (py_or (get element "elementName") (get element "element"))
               (get element "parameterName"))
        (get element "name").

(** Lines 146-159: the value found under [element["time"][0]]. *)
Definition nested_value (element : dict) : result json :=
  match lookup element "time" with
  | Some (JList (t0 :: _)) =>
      match t0 with
      | JDict t =>
          val <- _get_first_available t0 ["startTime"; "dataTime"] ;;
          let param :=
            match lookup t "parameter", lookup t "elementValue" with
            | Some (JDict parameter), _ =>
                py_or (get parameter "parameterName") (get parameter "parameterValue")
            | _, Some (JDict ev) => get ev "value"
            | _, _ => JNull
            end in
          Ok (if negb (is_none param) then param else val)
      | _ => Ok JNull
      end
  | _ => Ok JNull
  end.

(** Lines 146-169: the value of one [weatherElement] entry. *)
Definition element_value (element : dict) : result json :=
  val <- nested_value element ;;
  val <- (if is_none val then
            x <- _get_first_available (JDict element)
                   ["parameter"; "value"; "elementValue"; "forecast"; "parameterName"] ;;
            Ok (py_or x JNull)
          else Ok val) ;;
  Ok (if is_none val then
        match get element "time" with
        | JList (t0 :: _) =>
            try_except (parameter <- py_get t0 "parameter" (JDict []) ;;
                        py_get parameter "parameterName" JNull)
                       JNull
        | _ => val
        end
      else val).

Record scan : Type := {
  scan_min_temp : json;
  scan_max_temp : json;
  scan_description : json
}.

(** Lines 135-137. *)
Definition scan_init : scan :=
  {| scan_min_temp := JNull; scan_max_temp := JNull; scan_description := JNull |}.

(** Lines 141-180: one iteration of the loop over [weatherElement]. *)
Definition scan_element (st : scan) (element : json) : result scan :=
  match element with
  | JDict e =>
      let name := element_name e in
      val <- element_value e ;;
      lname <- (if truthy name then py_lower (py_or name (JStr EmptyString))
                else Ok EmptyString) ;;
      if any_in ["mint"; "min"; "tmin"] lname then
        Ok {| scan_min_temp := val;
              scan_max_temp := scan_max_temp st;
              scan_description := scan_description st |}
      else if any_in ["maxt"; "max"; "tmax"] lname then
        Ok {| scan_min_temp := scan_min_temp st;
              scan_max_temp := val;
              scan_description := scan_description st |}
      else if any_in ["wx"; "weather"; "description"; "wxvalue"; "wx_desc"] lname then
        Ok {| scan_min_temp := scan_min_temp st;
              scan_max_temp := scan_max_temp st;
              scan_description := val |}
      else if any_in ["temp"] lname then Ok st
      else Ok st
  | _ => Ok st
  end.

Fixpoint scan_elements (st : scan) (es : list json) : result scan :=
  match es with
  | [] => Ok st
  | element :: rest =>
      st' <- scan_element st element ;;
      scan_elements st' rest
  end.

(** Lines 139-140: the guard of that loop. *)
Definition scan_record (loc : dict) : result scan :=
  match lookup loc "weatherElement" with
  | Some (JList es) => scan_elements scan_init es
  | _ => Ok scan_init
  end.

(** Lines 183-184. *)
Definition description_of (loc : dict) (description : json) : result json :=
  if negb (truthy description) then
    x <- _get_first_available (JDict loc) ["description"; "weather"; "wx"; "parameterName"] ;;
    Ok (py_or x description)
  else Ok description.

(** [None if v in (None, str()) else str(v)] (lines 189-191) *)
Definition emit (v : json) : option string :=
  if none_or_empty v then None else Some (py_str v).

(** The body of the loop of [parse_locations]. *)
Definition obs_body (loc : json) : M obs_row unit :=
  match loc with
  | JDict l =>
      location_name <~ lift (location_name_of l) ;;
      date_val <~ obs_date l ;;
      st <~ lift (scan_record l) ;;
      description <~ lift (description_of l (scan_description st)) ;;
      append {| location := py_str location_name;
                date := py_str date_val;
                min_temp := emit (scan_min_temp st);
                max_temp := emit (scan_max_temp st);
                description := emit description |}
  | _ => ret tt
  end.

(** ** [parse_locations] (lines 44-197) *)

(** [now] is the number of clock readings made before the call; the list
    [rows] starts empty (line 49) and is what the call returns. *)
Definition parse_locations (data : json) (now : nat) : result (list obs_row) :=
  locations <- located_obs data ;;
  Ok (out (snd (for_each_try obs_body locations {| out := []; ticks := now |}))).

(** ** [parse_precipitation]: one station record (lines 299-342) *)

Record precip_row : Type := {
  p_location : string;
  p_date : string;
  p_period : string;
  p_precipitation : option pyfloat
}.

(** Lines 309-322. *)
Definition precip_date (loc : dict) : M precip_row json :=
  let date_val :=
    match lookup loc "ObsTime" with
    | Some (JDict obs_time) => py_or (get obs_time "DateTime") JNull
    | _ => JNull
    end in
  date_val <~ lift (if negb (truthy date_val) then date_of_time_list loc date_val
                    else Ok date_val) ;;
  date_val <~ lift (date_of_weather_elements loc date_val) ;;
  date_fallback loc date_val.

(** Line 324. *)
Definition rainfall_of (loc : dict) : json :=
  py_or (py_or (get loc "RainfallElement") (get loc "Rainfall")) (get loc "rainfall").

(** Lines 328-332. *)
Definition precip_value (sub : json) : result json :=
  match sub with
  | JDict _ =>
      x <- _get_first_available sub
             ["Precipitation"; "Precip"; "Value"; "precipitation"; "value"] ;;
      Ok (py_or x JNull)
  | _ => Ok sub
  end.

(** Lines 333-336. *)
Definition coerce (val : json) : option pyfloat :=
  try_except (if negb (none_or_empty val) then f <- py_float val ;; Ok (Some f)
              else Ok None)
             None.

(** Lines 327-342: one iteration of the loop over [rf.items()]. *)
Definition precip_entry (location_name date_val : json) (entry : string * json)
  : M precip_row unit :=
  let (period, sub) := entry in
  val <~ lift (precip_value sub) ;;
  let precip := coerce val in
  append {| p_location := py_str location_name;
            p_date := py_str date_val;
            p_period := period;
            p_precipitation := precip |}.

(** The body of the loop of [parse_precipitation]. *)
Definition precip_body (loc : json) : M precip_row unit :=
  match loc with
  | JDict l =>
      location_name <~ lift (location_name_of l) ;;
      date_val <~ precip_date l ;;
      match rainfall_of l with
      | JDict rf => for_each (precip_entry location_name date_val) rf
      | _ => ret tt
      end
  | _ => ret tt
  end.

(** ** [parse_precipitation] (lines 253-346) *)

Definition parse_precipitation (data : json) (now : nat) : result (list precip_row) :=
  locations <- located_precip data ;;
  Ok (out (snd (for_each_try precip_body locations {| out := []; ticks := now |}))).

(** ** [insert_rows] (lines 233-250) *)

(** A row of the [weather] table, without the columns the database fills. *)
Record weather_record : Type := {
  w_location : string;
  w_date : string;
  w_min_temp : option pyfloat;
  w_max_temp : option pyfloat;
  w_description : option string
}.

(** [float(r[key]) if r.get(key) not in (None, str()) else None] *)
Definition to_float (field : option string) : result (option pyfloat) :=
  match field with
  | Some s =>
      if nonempty s then f <- py_float (JStr s) ;; Ok (Some f) else Ok None
  | None => Ok None
  end.

(** The [try] block of the loop: coercions, [INSERT], count. *)
Definition insert_row (conn : list weather_record * nat) (r : obs_row)
  : result (list weather_record * nat) :=
  minv <- to_float (min_temp r) ;;
  maxv <- to_float (max_temp r) ;;
  Ok ((fst conn ++ [{| w_location := location r;
                       w_date := date r;
                       w_min_temp := minv;
                       w_max_temp := maxv;
                       w_description := description r |}])%list,
      S (snd conn)).

(** The table after the call and the number [inserted] it returns. *)
Fixpoint insert_rows_from (conn : list weather_record * nat) (rows : list obs_row)
  : list weather_record * nat :=
  match rows with
  | [] => conn
  | r :: rest => insert_rows_from (try_except (insert_row conn r) conn) rest
  end.

Definition insert_rows (table : list weather_record) (rows : list obs_row)
  : list weather_record * nat :=
  insert_rows_from (table, 0) rows.

End Extraction.

Arguments json : clear implicits.
Arguments json {PF}.

(** ** The specification's side of the comparisons *)

Section Specification.

Context {PF : PyFloat}.

(** The Key Resolver on an object: the value of the first candidate key that
    is present with a value other than null and the empty string. *)
Fixpoint first_available (record : dict) (candidate_keys : list string) : json :=
  match candidate_keys with
  | [] => JNull
  | k :: rest =>
      match lookup record k with
      | Some v => if none_or_empty v then first_available record rest else v
      | None => first_available record rest
      end
  end.

(** [document.k1.k2...]: absent as soon as a step is not an object or lacks
    the key. *)
Fixpoint at_path (document : json) (path : list string) : option json :=
  match path with
  | [] => Some document
  | k :: rest =>
      match document with
      | JDict d =>
          match lookup d k with
          | Some v => at_path v rest
          | None => None
          end
      | _ => None
      end
  end.

Definition as_list (v : option json) : option (list json) :=
  match v with
  | Some (JList l) => Some l
  | _ => None
  end.

(** The [properties] sub-object of a feature, an empty object if absent. *)
Definition properties_or_empty (feature : json) : json :=
  match at_path feature ["properties"] with
  | Some p => p
  | None => JDict []
  end.

Definition shape_heuristic : Type := json -> option (list json).

(** The shape heuristics 1 to 5 of the Record-List Locator. *)
Definition station_wrapper : shape_heuristic :=
  fun document => as_list (at_path document ["cwaopendata"; "dataset"; "Station"]).

Definition records_list : shape_heuristic :=
  fun document =>
    match as_list (at_path document ["records"; "location"]) with
    | Some l => Some l
    | None => as_list (at_path document ["records"])
    end.

Definition top_level (key : string) : shape_heuristic :=
  fun document => as_list (at_path document [key]).

Definition geojson_features : shape_heuristic :=
  fun document =>
    option_map (map properties_or_empty) (as_list (at_path document ["features"])).

Definition bare_list : shape_heuristic :=
  fun document => as_list (Some document).

(** Tried in fixed order, first success wins. *)
Fixpoint first_success (heuristics : list shape_heuristic) (document : json)
  : option (list json) :=
  match heuristics with
  | [] => None
  | h :: rest =>
      match h document with
      | Some l => Some l
      | None => first_success rest document
      end
  end.

(** The locator as the specification words it: a heuristic succeeds when
    its list is present; the object fallback and the empty sequence come
    last. *)
Definition locate_spec (document : json) : list json :=
  match first_success
          [station_wrapper; records_list; top_level "location";
           top_level "locations"; geojson_features; bare_list] document with
  | Some l => l
  | None => if is_dict document then [document] else []
  end.

(** A heuristic that succeeds only with a non-empty list. *)
Definition when_nonempty (h : shape_heuristic) : shape_heuristic :=
  fun document =>
    match h document with
    | Some (x :: l) => Some (x :: l)
    | _ => None
    end.

(** The locator with the two guards of the code: the station wrapper counts
    only when non-empty, and an empty selection leads to the fallback. *)
Definition locate_guarded (document : json) : list json :=
  match first_success
          [when_nonempty station_wrapper; records_list; top_level "location";
           top_level "locations"; geojson_features; bare_list] document with
  | Some (x :: l) => x :: l
  | _ => if is_dict document then [document] else []
  end.

(** Documents on which [records.location], when [records] is an object that
    has it, is a list or null. *)
Definition records_location_listed (document : json) : bool :=
  match at_path document ["records"] with
  | Some (JDict rec) =>
      match lookup rec "location" with
      | Some (JList _) | Some JNull | None => true
      | Some _ => false
      end
  | _ => true
  end.

(** Documents whose [features], when a list, holds objects only. *)
Definition features_are_objects (document : json) : bool :=
  match at_path document ["features"] with
  | Some (JList features) => forallb is_dict features
  | _ => true
  end.

(** Documents in which a non-empty station wrapper does not come with a
    [records] key. *)
Definition wrapper_without_records (document : json) : bool :=
  match nonempty_list (_get_station_list document), at_path document ["records"] with
  | Some _, Some _ => false
  | _, _ => true
  end.

(** The observation locator resorts to the single-object fallback. *)
Definition wraps_document (document : json) : bool :=
  match locations_obs document with
  | Ok locations => negb (truthy locations) && is_dict document
  | Raise _ => false
  end.

(** The categories of the element classifier. *)
Inductive category : Type :=
| MinTemp
| MaxTemp
| Description.

Definition category_eqb (a b : category) : bool :=
  match a, b with
  | MinTemp, MinTemp | MaxTemp, MaxTemp | Description, Description => true
  | _, _ => false
  end.

(** Classification by substring containment on the lowercased name. *)
Definition classify (lname : string) : option category :=
  if any_in ["mint"; "min"; "tmin"] lname then Some MinTemp
  else if any_in ["maxt"; "max"; "tmax"] lname then Some MaxTemp
  else if any_in ["wx"; "weather"; "description"; "wxvalue"; "wx_desc"] lname
       then Some Description
  else None.

(** The lowercased resolved name of an element; empty when it has none. *)
Definition lowered_name (element : dict) : string :=
  match element_name element with
  | JStr s => lower s
  | _ => EmptyString
  end.

Definition category_of (element : json) : option category :=
  match element with
  | JDict e => classify (lowered_name e)
  | _ => None
  end.

Definition in_category (c : category) (element : json) : bool :=
  match category_of element with
  | Some c' => category_eqb c c'
  | None => false
  end.

(** The assignment the classifier makes for a category. *)
Definition assign (c : option category) (val : json) (st : scan) : scan :=
  match c with
  | Some MinTemp =>
      {| scan_min_temp := val;
         scan_max_temp := scan_max_temp st;
         scan_description := scan_description st |}
  | Some MaxTemp =>
      {| scan_min_temp := scan_min_temp st;
         scan_max_temp := val;
         scan_description := scan_description st |}
  | Some Description =>
      {| scan_min_temp := scan_min_temp st;
         scan_max_temp := scan_max_temp st;
         scan_description := val |}
  | None => st
  end.

Definition scan_field (c : category) (st : scan) : json :=
  match c with
  | MinTemp => scan_min_temp st
  | MaxTemp => scan_max_temp st
  | Description => scan_description st
  end.

(** The value the scan resolves for an element. *)
Definition value_of (element : json) : json :=
  match element with
  | JDict e => try_except (element_value e) JNull
  | _ => JNull
  end.

(** The value of the last element of the list that falls in the category;
    null when there is none. *)
Definition last_value (c : category) (elements : list json) : json :=
  match find (in_category c) (rev elements) with
  | Some element => value_of element
  | None => JNull
  end.

(** The precipitation value of one entry of the rainfall map. *)
Definition resolved_precipitation (sub : json) : json :=
  match sub with
  | JDict d =>
      py_or (first_available d ["Precipitation"; "Precip"; "Value"; "precipitation"; "value"])
            JNull
  | _ => sub
  end.

Definition well_formed_obs (r : obs_row) : Prop :=
  location r <> EmptyString /\ date r <> EmptyString.

Definition well_formed_precip (r : precip_row) : Prop :=
  p_location r <> EmptyString /\ p_date r <> EmptyString.

End Specification.

(** ** An executable instance of the float interface

    Floats as exact decimals (no rounding to binary64), enough to run the
    extractors on concrete documents.  No theorem of the development
    depends on this instance. *)

Inductive decimal : Type :=
| Dec (negative : bool) (mantissa : N) (exponent : Z)
| DInf (negative : bool)
| DNan.

Definition is_space (c : ascii) : bool :=
  let n := nat_of_ascii c in
  (n =? 32)%nat || ((9 <=? n)%nat && (n <=? 13)%nat).

Fixpoint lstrip (s : list ascii) : list ascii :=
  match s with
  | c :: rest => if is_space c then lstrip rest else s
  | [] => []
  end.

Definition strip (s : list ascii) : list ascii :=
  rev (lstrip (rev (lstrip s))).

Definition digit_of (c : ascii) : option N :=
  let n := nat_of_ascii c in
  if (48 <=? n)%nat && (n <=? 57)%nat then Some (N.of_nat (n - 48)) else None.

(** [digit (["_"] digit)*]: value, number of digits, and the rest. *)
Fixpoint more_digits (s : list ascii) (acc : N) (count : nat) : N * nat * list ascii :=
  match s with
  | c :: rest =>
      match digit_of c with
      | Some d => more_digits rest (10 * acc + d)%N (S count)
      | None =>
          match rest with
          | c' :: rest' =>
              match Ascii.eqb c "_", digit_of c' with
              | true, Some d => more_digits rest' (10 * acc + d)%N (S count)
              | _, _ => (acc, count, s)
              end
          | [] => (acc, count, s)
          end
      end
  | [] => (acc, count, s)
  end.

Definition digitpart (s : list ascii) : option (N * nat * list ascii) :=
  match s with
  | c :: rest =>
      match digit_of c with
      | Some d => Some (more_digits rest d 1)
      | None => None
      end
  | [] => None
  end.

Definition sign_of (s : list ascii) : bool * list ascii :=
  match s with
  | c :: rest =>
      if Ascii.eqb c "-" then (true, rest)
      else if Ascii.eqb c "+" then (false, rest)
      else (false, s)
  | [] => (false, s)
  end.

Definition exponent_of (s : list ascii) : option Z :=
  match s with
  | [] => Some 0%Z
  | c :: rest =>
      if Ascii.eqb (lower_ascii c) "e" then
        let (neg, rest) := sign_of rest in
        match digitpart rest with
        | Some (e, _, []) => Some (if neg then (- Z.of_N e)%Z else Z.of_N e)
        | _ => None
        end
      else None
  end.

Definition number_of (neg : bool) (s : list ascii) : option decimal :=
  let finish (int_part frac_part : N) (frac_len : nat) (rest : list ascii) :=
    match exponent_of rest with
    | Some e =>
        Some (Dec neg (int_part * 10 ^ N.of_nat frac_len + frac_part)%N
                  (e - Z.of_nat frac_len)%Z)
    | None => None
    end in
  match digitpart s with
  | Some (i, _, rest) =>
      match rest with
      | c :: rest' =>
          if Ascii.eqb c "." then
            match digitpart rest' with
            | Some (f, n, rest'') => finish i f n rest''
            | None => finish i 0%N 0 rest'
            end
          else finish i 0%N 0 rest
      | [] => finish i 0%N 0 rest
      end
  | None =>
      match s with
      | c :: rest =>
          if Ascii.eqb c "." then
            match digitpart rest with
            | Some (f, n, rest') => finish 0%N f n rest'
            | None => None
            end
          else None
      | [] => None
      end
  end.

Definition decimal_of_string (s : string) : option decimal :=
  let (neg, body) := sign_of (strip (list_ascii_of_string s)) in
  let word := string_of_list_ascii (map lower_ascii body) in
  if String.eqb word "inf" || String.eqb word "infinity" then Some (DInf neg)
  else if String.eqb word "nan" then Some DNan
  else number_of neg body.

Definition decimal_of_int (z : Z) : option decimal :=
  if (2 ^ 1024 - 2 ^ 970 <=? Z.abs z)%Z then None
  else Some (Dec (z <? 0)%Z (Z.abs_N z) 0).

Definition decimal_is_zero (x : decimal) : bool :=
  match x with
  | Dec _ m _ => (m =? 0)%N
  | _ => false
  end.

Definition decimal_repr (x : decimal) : string :=
  match x with
  | Dec neg m e =>
      (if neg then "-" else EmptyString)
      ++ string_of_nat (N.to_nat m) ++ String "e" (string_of_Z e)
  | DInf neg => if neg then "-inf" else "inf"
  | DNan => "nan"
  end.

Definition DecimalFloat : PyFloat := {|
  pyfloat := decimal;
  float_is_zero := decimal_is_zero;
  float_repr := decimal_repr;
  float_repr_nonempty :=
    ltac:(intros [[] m e | [] | ]; simpl; try discriminate;
          destruct (string_of_nat (N.to_nat m)); discriminate);
  float_of_string := decimal_of_string;
  float_of_int := decimal_of_int
|}.

(** A clock for the examples: every reading is the same instant. *)
Definition noon : datetime :=
  {| year := 2024; month := 5; day := 17;
     hour := 12; minute := 0; second := 0; microsecond := 0 |}.

Definition fixed_clock (_ : nat) : datetime := noon.

(** The state in which a call starts. *)
Definition start {R : Type} : world R := {| out := []; ticks := 0 |}.

(** A station record of the wrapper format, with a rainfall map. *)
Definition taipei : @dict DecimalFloat :=
  [("StationName", JStr "Taipei");
   ("ObsTime", JDict [("DateTime", JStr "2024-05-17T10:00:00+08:00")]);
   ("RainfallElement",
    JDict [("Past24hr", JDict [("Precipitation", JStr "3.5")]);
           ("Now", JDict [("Precipitation", JStr "0.0")]);
           ("Past1hr", JDict [("Precipitation", JStr "N/A")])])].

(** A record whose [time] list starts with a number. *)
Definition bad_time : @dict DecimalFloat :=
  [("StationName", JStr "Hualien");
   ("time", JList [JInt 5]);
   ("RainfallElement", JDict [("Now", JDict [("Precipitation", JStr "1.0")])])].

(** A record with an element named by a number. *)
Definition bad_name : @dict DecimalFloat :=
  [("weatherElement", JList [JDict [("elementName", JInt 5)]])].

(** A forecast record: two elements for min_temp, two for description (the
    second without a value), and a record-level description. *)
Definition forecast_elements : list (@json DecimalFloat) :=
  [JDict [("elementName", JStr "MinT"); ("value", JStr "17")];
   JDict [("elementName", JStr "MinT"); ("value", JStr "18")];
   JDict [("elementName", JStr "Wx"); ("value", JStr "Cloudy")];
   JDict [("elementName", JStr "Wx")]].

Definition forecast : @dict DecimalFloat :=
  [("locationName", JStr "A");
   ("weatherElement", JList forecast_elements);
   ("description", JStr "Rain")].

(** A document with a station wrapper beside a top-level [location] list. *)
Definition wrapped (stations : list (@json DecimalFloat)) : @json DecimalFloat :=
  JDict [("cwaopendata", JDict [("dataset", JDict [("Station", JList stations)])]);
         ("location", JList [JDict [("locationName", JStr "A")]])].

(** A document with a station wrapper beside a [records] list. *)
Definition wrapped_with_records : @json DecimalFloat :=
  JDict [("cwaopendata", JDict [("dataset", JDict [("Station", JList [JDict taipei])])]);
         ("records", JList [JDict forecast])].

(** * The storage step, the pipeline and the viewer *)

From Stdlib Require Import Lia Permutation Sorted.

Section Storage.

Context {PF : PyFloat}.
Variable clock : nat -> datetime.

(** ** [insert_precip_rows] (lines 349-363) *)

(** A row of the [precipitation] table, without the columns the database
    fills. *)
Record precip_record : Type := {
  pr_location : string;
  pr_date : string;
  pr_period : string;
  pr_precipitation : option pyfloat
}.

(** Line 354; the value is a float or [None], as [parse_precipitation]
    leaves it, and a float is never found in [(None, str())]. *)
Definition to_float_precip (field : option pyfloat) : result (option pyfloat) :=
  match field with
  | Some f => p <- py_float (JFloat f) ;; Ok (Some p)
  | None => Ok None
  end.

(** The [try] block of the loop: coercion, [INSERT], count. *)
Definition insert_precip_row (conn : list precip_record * nat) (r : precip_row)
  : result (list precip_record * nat) :=
  p <- to_float_precip (p_precipitation r) ;;
  Ok ((fst conn ++ [{| pr_location := p_location r;
                       pr_date := p_date r;
                       pr_period := p_period r;
                       pr_precipitation := p |}])%list,
      S (snd conn)).

Fixpoint insert_precip_rows_from (conn : list precip_record * nat) (rows : list precip_row)
  : list precip_record * nat :=
  match rows with
  | [] => conn
  | r :: rest =>
      insert_precip_rows_from (try_except (insert_precip_row conn r) conn) rest
  end.

(** The table after the call and the number [inserted] it returns. *)
Definition insert_precip_rows (table : list precip_record) (rows : list precip_row)
  : list precip_record * nat :=
  insert_precip_rows_from (table, 0) rows.

(** ** [init_db] (lines 200-230) *)

(** The two tables of [data.db]; [None] is a table that does not exist. *)
Record database : Type := {
  weather : option (list weather_record);
  precipitation : option (list precip_record)
}.

Definition rows_of {A : Type} (table : option (list A)) : list A :=
  match table with
  | Some rows => rows
  | None => []
  end.

(** [CREATE TABLE IF NOT EXISTS], twice. *)
Definition init_db (db : database) : database :=
  {| weather := Some (rows_of (weather db));
     precipitation := Some (rows_of (precipitation db)) |}.

(** ** [main] (lines 366-402) *)

Inductive outcome : Type :=
| Finished
| Exited (code : nat)
| Raised (e : exn).

(** The clock readings made when [parse_locations] returns. *)
Definition ticks_after_parse_locations (data : json) (now : nat) : nat :=
  match located_obs data with
  | Ok locations =>
      ticks (snd (for_each_try (obs_body clock) locations {| out := []; ticks := now |}))
  | Raise _ => now
  end.

(** [fetched] is what [fetch_json(URL)] does: the decoded document or an
    exception.  Logging and the dump to [raw.json], whose failure is
    caught, touch neither the database nor the way [main] ends. *)
Definition main (fetched : result json) (db : database) (now : nat)
  : outcome * database :=
  match fetched with
  | Raise _ => (Exited 1, db)
  | Ok data =>
      match parse_locations clock data now with
      | Raise e => (Raised e, db)
      | Ok [] => (Exited 1, db)
      | Ok rows =>
          let db := init_db db in
          let (weather_rows, n) := insert_rows (rows_of (weather db)) rows in
          let db := {| weather := Some weather_rows; precipitation := precipitation db |} in
          match parse_precipitation clock data (ticks_after_parse_locations data now) with
          | Raise e => (Raised e, db)
          | Ok [] => (Finished, db)
          | Ok precip_rows =>
              let (precipitation_rows, m) :=
                insert_precip_rows (rows_of (precipitation db)) precip_rows in
              (Finished,
               {| weather := weather db; precipitation := Some precipitation_rows |})
          end
      end
  end.

(** ** What the storage step keeps of a row *)

(** The row can be stored: both temperatures are absent or accepted by
    [float]. *)
Definition storable (r : obs_row) : bool :=
  negb (is_raise (to_float (min_temp r))) && negb (is_raise (to_float (max_temp r))).

(** The row as the table holds it. *)
Definition stored (r : obs_row) : weather_record :=
  {| w_location := location r;
     w_date := date r;
     w_min_temp := try_except (to_float (min_temp r)) None;
     w_max_temp := try_except (to_float (max_temp r)) None;
     w_description := description r |}.

Definition stored_precip (r : precip_row) : precip_record :=
  {| pr_location := p_location r;
     pr_date := p_date r;
     pr_period := p_period r;
     pr_precipitation := p_precipitation r |}.

(** An optional text field is absent or a non-empty string. *)
Definition present_nonempty (field : option string) : Prop :=
  match field with
  | Some s => s <> EmptyString
  | None => True
  end.

(** The station list has no object among its entries. *)
Definition no_object (locations : list json) : bool :=
  forallb (fun loc => negb (is_dict loc)) locations.

(** No object of the station list has a rainfall map. *)
Definition no_rainfall (locations : list json) : bool :=
  forallb (fun loc => match loc with
                      | JDict l => negb (is_dict (rainfall_of l))
                      | _ => true
                      end) locations.

(** A key is absent from the object, or bound to null or the empty string. *)
Definition unavailable (d : dict) (k : string) : Prop :=
  match lookup d k with
  | Some v => none_or_empty v = true
  | None => True
  end.

End Storage.

(** ** The precipitation viewer of [app.py] *)

(** Lines 98-108. *)
Definition PERIOD_ORDER : list string :=
  ["Now"; "Past10Min"; "Past1hr"; "Past3hr"; "Past6hr"; "Past12hr";
   "Past24hr"; "Past2days"; "Past3days"].






(** [d[k] = v] on a dict in insertion order. *)
Fixpoint dict_set {V : Type} (d : list (string * V)) (k : string) (v : V)
  : list (string * V) :=
  match d with
  | [] => [(k, v)]
  | (k', v') :: rest =>
      if String.eqb k' k then (k', v) :: rest
      else (k', v') :: dict_set rest k v
  end.

(** [d.get(k, None)] *)
Fixpoint dict_get {V : Type} (d : list (string * V)) (k : string) : option V :=
  match d with
  | [] => None
  | (k', v) :: rest => if String.eqb k' k then Some v else dict_get rest k
  end.

(** Line 125: [{r["period"]: r["precipitation"] for _, r in recs.iterrows()}];
    a record is its period and its precipitation. *)
Definition val_map {V : Type} (recs : list (string * V)) : list (string * V) :=
  fold_left (fun d r => dict_set d (fst r) (snd r)) recs [].

(** Line 126: [[val_map.get(p, None) for p in PERIOD_ORDER]] *)
Definition period_values {V : Type} (recs : list (string * V)) : list (option V) :=
  map (dict_get (val_map recs)) PERIOD_ORDER.

(** ** Documents and a database for the examples *)

(** A record with a [time] list and an [ObsTime] object. *)
Definition both_dates : @dict DecimalFloat :=
  [("StationName", JStr "Yilan");
   ("time", JList [JDict [("startTime", JStr "2024-05-17T06:00:00")]]);
   ("ObsTime", JDict [("DateTime", JStr "2024-05-17T10:00:00+08:00")])].

(** A record that fails in [parse_locations] and has a rainfall map. *)
Definition stranded_rainfall : @dict DecimalFloat :=
  [("StationName", JStr "Penghu");
   ("weatherElement", JList [JDict [("elementName", JInt 5)]]);
   ("RainfallElement", JDict [("Now", JDict [("Precipitation", JStr "2.5")])])].


Definition no_tables : @database DecimalFloat :=
  {| weather := None; precipitation := None |}.

(** * Properties *)

Section Properties.

Context {PF : PyFloat}.
Variable clock : nat -> datetime.

(** ** The Key Resolver and the monad *)

Lemma get_first_available_dict (d : dict) (keys : list string) :
  _get_first_available (JDict d) keys = Ok (first_available d keys).
Proof.
  induction keys as [|k rest IH]; simpl; [reflexivity|].
  unfold has_key. destruct (lookup d k) as [v|]; simpl; [|exact IH].
  destruct (none_or_empty v); [exact IH | reflexivity].
Qed.

Lemma for_each_try_app {R A : Type} (body : A -> M R unit) (l1 l2 : list A) (w : world R) :
  for_each_try body (l1 ++ l2)%list w
  = for_each_try body l2 (snd (for_each_try body l1 w)).
Proof.
  revert w. induction l1 as [|x l1 IH]; intros w; simpl; [reflexivity | apply IH].
Qed.

Lemma keeps_out_ret {R A : Type} (a : A) : keeps_out (@ret R A a).
Proof. intros w. reflexivity. Qed.

Lemma keeps_out_lift {R A : Type} (r : result A) : keeps_out (@lift R A r).
Proof. intros w. reflexivity. Qed.

Lemma keeps_out_utcnow {R : Type} : keeps_out (@utcnow clock R).
Proof. intros w. reflexivity. Qed.

Lemma keeps_out_bind {R A B : Type} (c : M R A) (k : A -> M R B) :
  keeps_out c -> (forall a, keeps_out (k a)) -> keeps_out (bind c k).
Proof.
  intros Hc Hk w. unfold bind. specialize (Hc w).
  destruct (c w) as [[a|e] w1]; simpl in *.
  - rewrite Hk. exact Hc.
  - exact Hc.
Qed.

Lemma keeps_out_date_fallback {R : Type} (loc : dict) (date_val : json) :
  keeps_out (@date_fallback PF clock R loc date_val).
Proof.
  unfold date_fallback. destruct (truthy date_val); [apply keeps_out_ret|].
  apply keeps_out_bind; [apply keeps_out_lift|]. intros x.
  destruct (truthy x); [apply keeps_out_ret|].
  apply keeps_out_bind; [apply keeps_out_utcnow|]. intros now. apply keeps_out_ret.
Qed.

Lemma keeps_out_obs_date (loc : dict) : keeps_out (obs_date clock loc).
Proof.
  unfold obs_date.
  apply keeps_out_bind; [apply keeps_out_lift|]. intros d1.
  apply keeps_out_bind; [apply keeps_out_lift|]. intros d2.
  apply keeps_out_date_fallback.
Qed.

Lemma keeps_out_precip_date (loc : dict) : keeps_out (precip_date clock loc).
Proof.
  unfold precip_date.
  apply keeps_out_bind; [apply keeps_out_lift|]. intros d1.
  apply keeps_out_bind; [apply keeps_out_lift|]. intros d2.
  apply keeps_out_date_fallback.
Qed.

(** An exception of [c ;; k] leaves the output as it was when [c] appends
    nothing and [k] appends nothing before it raises. *)
Lemma bind_raise_out {R A B : Type} (c : M R A) (k : A -> M R B)
      (w w' : world R) (e : exn) :
  keeps_out c ->
  (forall a w1 w2 e', k a w1 = (Raise e', w2) -> out w2 = out w1) ->
  bind c k w = (Raise e, w') ->
  out w' = out w.
Proof.
  intros Hc Hk. unfold bind. specialize (Hc w).
  destruct (c w) as [[a|e1] w1]; simpl in Hc; intros H.
  - rewrite (Hk _ _ _ _ H). exact Hc.
  - inversion H; subst. exact Hc.
Qed.

(** ** The skipped entries of the record list *)

Lemma obs_body_raise (loc : json) (w w' : world obs_row) (e : exn) :
  obs_body clock loc w = (Raise e, w') -> out w' = out w.
Proof.
  destruct loc; simpl; try (unfold ret; discriminate).
  apply bind_raise_out; [apply keeps_out_lift|]. intros name w1 w2 e1.
  apply bind_raise_out; [apply keeps_out_obs_date|]. intros date_val w3 w4 e2.
  apply bind_raise_out; [apply keeps_out_lift|]. intros st w5 w6 e3.
  apply bind_raise_out; [apply keeps_out_lift|]. intros descr w7 w8 e4.
  unfold append. discriminate.
Qed.

Lemma precip_value_ok (sub : json) :
  precip_value sub = Ok (resolved_precipitation sub).
Proof.
  destruct sub; try reflexivity.
  unfold precip_value, resolved_precipitation.
  rewrite get_first_available_dict. reflexivity.
Qed.

(** The loop over the rainfall map appends one row per entry and cannot
    raise. *)
Lemma precip_entries (location_name date_val : json) (rf : dict) (w : world precip_row) :
  for_each (precip_entry location_name date_val) rf w
  = (Ok tt,
     {| out := (out w
                ++ map (fun entry =>
                          {| p_location := py_str location_name;
                             p_date := py_str date_val;
                             p_period := fst entry;
                             p_precipitation :=
                               coerce (resolved_precipitation (snd entry)) |}) rf)%list;
        ticks := ticks w |}).
Proof.
  revert w. induction rf as [|[period sub] rf IH]; intros w; simpl.
  - unfold ret. rewrite app_nil_r. destruct w; reflexivity.
  - unfold bind at 1. unfold precip_entry at 1. unfold bind, lift.
    rewrite precip_value_ok. unfold append. rewrite IH. simpl.
    rewrite <- app_assoc. reflexivity.
Qed.

Lemma precip_body_raise (loc : json) (w w' : world precip_row) (e : exn) :
  precip_body clock loc w = (Raise e, w') -> out w' = out w.
Proof.
  destruct loc; simpl; try (unfold ret; discriminate).
  apply bind_raise_out; [apply keeps_out_lift|]. intros name w1 w2 e1.
  apply bind_raise_out; [apply keeps_out_precip_date|]. intros date_val w3 w4 e2.
  destruct (rainfall_of d); try (unfold ret; discriminate).
  rewrite precip_entries. discriminate.
Qed.

(** C10.  An entry of the record list that is not an object is skipped by
    both extractors: the body of either loop returns at once, without a
    row, without reading the clock and without an exception, so the run
    over a list holding the entry is the run over the list without it. *)
Theorem non_object_entries_skipped :
  forall (loc : json) (l1 l2 : list json)
         (wo : world obs_row) (wp : world precip_row),
    is_dict loc = false ->
    obs_body clock loc wo = (Ok tt, wo)
    /\ precip_body clock loc wp = (Ok tt, wp)
    /\ for_each_try (obs_body clock) (l1 ++ loc :: l2)%list wo
       = for_each_try (obs_body clock) (l1 ++ l2)%list wo
    /\ for_each_try (precip_body clock) (l1 ++ loc :: l2)%list wp
       = for_each_try (precip_body clock) (l1 ++ l2)%list wp.
Proof.
  intros loc l1 l2 wo wp Hloc.
  assert (Ho : forall w, obs_body clock loc w = (Ok tt, w))
    by (intros w; destruct loc; try discriminate; reflexivity).
  assert (Hp : forall w, precip_body clock loc w = (Ok tt, w))
    by (intros w; destruct loc; try discriminate; reflexivity).
  repeat split; auto.
  - rewrite !for_each_try_app. simpl. rewrite Ho. reflexivity.
  - rewrite !for_each_try_app. simpl. rewrite Hp. reflexivity.
Qed.


(** ** Location and date of the emitted rows *)

Lemma nonempty_neq (s : string) : nonempty s = true <-> s <> EmptyString.
Proof.
  destruct s; simpl; split; intros H; try discriminate; try reflexivity.
  exfalso; apply H; reflexivity.
Qed.

Lemma nonempty_append_r (a b : string) : nonempty b = true -> nonempty (a ++ b) = true.
Proof. destruct a; simpl; auto. Qed.

Lemma digits_fuel_nonempty (fuel n : nat) (acc : string) :
  nonempty acc = true -> nonempty (digits_fuel fuel n acc) = true.
Proof.
  revert n acc. induction fuel as [|fuel IH]; intros n acc H; simpl; [exact H|].
  destruct (n <? 10)%nat; [reflexivity | apply IH; reflexivity].
Qed.

Lemma string_of_nat_nonempty (n : nat) : nonempty (string_of_nat n) = true.
Proof.
  unfold string_of_nat. simpl.
  destruct (n <? 10)%nat; [reflexivity | apply digits_fuel_nonempty; reflexivity].
Qed.

Lemma isoformat_nonempty (dt : datetime) : nonempty (isoformat dt) = true.
Proof. unfold isoformat. apply nonempty_append_r. reflexivity. Qed.

(** [str(v)] is empty for the empty string only. *)
Lemma py_str_nonempty (v : json) : truthy v = true -> nonempty (py_str v) = true.
Proof.
  destruct v as [|b|z|f|s|l|d]; simpl; intros H; try discriminate; try reflexivity.
  - destruct b; reflexivity.
  - destruct z; simpl; try reflexivity; apply string_of_nat_nonempty.
  - apply nonempty_neq. apply float_repr_nonempty.
  - exact H.
Qed.

Lemma py_or_truthy (a b : json) : truthy b = true -> truthy (py_or a b) = true.
Proof. unfold py_or. destruct (truthy a) eqn:E; auto. Qed.

Lemma location_name_truthy (loc : dict) (name : json) :
  location_name_of loc = Ok name -> truthy name = true.
Proof.
  unfold location_name_of.
  destruct (truthy (if has_key loc "StationName" then get loc "StationName" else JNull)) eqn:E.
  - intros H; inversion H; subst. exact E.
  - rewrite get_first_available_dict. simpl. intros H; inversion H.
    apply py_or_truthy. reflexivity.
Qed.

Lemma date_fallback_truthy {R : Type} (loc : dict) (date_val d : json) (w w' : world R) :
  date_fallback clock loc date_val w = (Ok d, w') -> truthy d = true.
Proof.
  unfold date_fallback. destruct (truthy date_val) eqn:E.
  - unfold ret. intros H; inversion H; subst. exact E.
  - unfold bind, lift. rewrite get_first_available_dict.
    destruct (truthy (first_available loc _)) eqn:E'.
    + unfold ret. intros H; inversion H; subst. exact E'.
    + unfold utcnow, ret. intros H; inversion H. simpl. apply isoformat_nonempty.
Qed.

Lemma bind_ok {R A B : Type} (c : M R A) (k : A -> M R B) (w w' : world R) (b : B) :
  bind c k w = (Ok b, w') ->
  exists a w1, c w = (Ok a, w1) /\ k a w1 = (Ok b, w').
Proof.
  unfold bind. destruct (c w) as [[a|e] w1]; intros H; [|discriminate].
  exists a, w1. split; [reflexivity | exact H].
Qed.

Lemma obs_date_truthy (loc : dict) (d : json) (w w' : world obs_row) :
  obs_date clock loc w = (Ok d, w') -> truthy d = true.
Proof.
  unfold obs_date. intros H.
  apply bind_ok in H. destruct H as (d1 & w1 & _ & H).
  apply bind_ok in H. destruct H as (d2 & w2 & _ & H).
  exact (date_fallback_truthy _ _ _ _ _ H).
Qed.

Lemma precip_date_truthy (loc : dict) (d : json) (w w' : world precip_row) :
  precip_date clock loc w = (Ok d, w') -> truthy d = true.
Proof.
  unfold precip_date. intros H.
  apply bind_ok in H. destruct H as (d1 & w1 & _ & H).
  apply bind_ok in H. destruct H as (d2 & w2 & _ & H).
  exact (date_fallback_truthy _ _ _ _ _ H).
Qed.

(** What a normal end of the body of [parse_locations] means. *)
Lemma obs_body_ok (loc : dict) (w w' : world obs_row) :
  obs_body clock (JDict loc) w = (Ok tt, w') ->
  exists name date_val st descr w1,
    location_name_of loc = Ok name
    /\ obs_date clock loc w = (Ok date_val, w1)
    /\ scan_record loc = Ok st
    /\ description_of loc (scan_description st) = Ok descr
    /\ w' = {| out := (out w ++ [{| location := py_str name;
                                    date := py_str date_val;
                                    min_temp := emit (scan_min_temp st);
                                    max_temp := emit (scan_max_temp st);
                                    description := emit descr |}])%list;
               ticks := ticks w1 |}.
Proof.
  unfold obs_body. intros H.
  apply bind_ok in H. destruct H as (name & w0 & Hn & H).
  apply bind_ok in H. destruct H as (date_val & w1 & Hd & H).
  apply bind_ok in H. destruct H as (st & w2 & Hs & H).
  apply bind_ok in H. destruct H as (descr & w3 & Hx & H).
  unfold lift in Hn, Hs, Hx. inversion Hn; subst. inversion Hs; subst.
  inversion Hx; subst. unfold append in H. inversion H; subst.
  exists name, date_val, st, descr, w3. repeat split; try assumption.
  rewrite <- (keeps_out_obs_date loc w0), Hd. reflexivity.
Qed.

(** What a normal end of the body of [parse_precipitation] means. *)
Lemma precip_body_ok (loc : dict) (w w' : world precip_row) :
  precip_body clock (JDict loc) w = (Ok tt, w') ->
  exists name date_val w1,
    location_name_of loc = Ok name
    /\ precip_date clock loc w = (Ok date_val, w1)
    /\ w' = {| out := (out w
                       ++ match rainfall_of loc with
                          | JDict rf =>
                              map (fun entry =>
                                     {| p_location := py_str name;
                                        p_date := py_str date_val;
                                        p_period := fst entry;
                                        p_precipitation :=
                                          coerce (resolved_precipitation (snd entry)) |}) rf
                          | _ => []
                          end)%list;
               ticks := ticks w1 |}.
Proof.
  unfold precip_body. intros H.
  apply bind_ok in H. destruct H as (name & w0 & Hn & H).
  apply bind_ok in H. destruct H as (date_val & w1 & Hd & H).
  unfold lift in Hn. inversion Hn; subst.
  exists name, date_val, w1. repeat split; try assumption.
  assert (Ho : out w1 = out w0)
    by (rewrite <- (keeps_out_precip_date loc w0), Hd; reflexivity).
  destruct (rainfall_of loc);
    try (unfold ret in H; inversion H; subst; rewrite app_nil_r;
         rewrite <- Ho; destruct w'; reflexivity).
  rewrite precip_entries in H. inversion H. rewrite Ho. reflexivity.
Qed.

Lemma obs_body_well_formed (loc : json) (w : world obs_row) :
  Forall well_formed_obs (out w) ->
  Forall well_formed_obs (out (snd (obs_body clock loc w))).
Proof.
  intros Hw. destruct (obs_body clock loc w) as [[[]|e] w'] eqn:E; simpl.
  - destruct loc; try (unfold obs_body, ret in E; inversion E; subst; exact Hw).
    apply obs_body_ok in E.
    destruct E as (name & date_val & st & descr & w1 & Hn & Hd & _ & _ & ->). simpl.
    apply Forall_app. split; [exact Hw|]. constructor; [|constructor].
    split; simpl; apply nonempty_neq, py_str_nonempty.
    + exact (location_name_truthy _ _ Hn).
    + exact (obs_date_truthy _ _ _ _ Hd).
  - rewrite (obs_body_raise _ _ _ _ E). exact Hw.
Qed.

Lemma precip_body_well_formed (loc : json) (w : world precip_row) :
  Forall well_formed_precip (out w) ->
  Forall well_formed_precip (out (snd (precip_body clock loc w))).
Proof.
  intros Hw. destruct (precip_body clock loc w) as [[[]|e] w'] eqn:E; simpl.
  - destruct loc; try (unfold precip_body, ret in E; inversion E; subst; exact Hw).
    apply precip_body_ok in E.
    destruct E as (name & date_val & w1 & Hn & Hd & ->). simpl.
    apply Forall_app. split; [exact Hw|].
    destruct (rainfall_of d); try constructor.
    apply Forall_map, Forall_forall. intros entry _.
    split; simpl; apply nonempty_neq, py_str_nonempty.
    + exact (location_name_truthy _ _ Hn).
    + exact (precip_date_truthy _ _ _ _ Hd).
  - rewrite (precip_body_raise _ _ _ _ E). exact Hw.
Qed.

Lemma for_each_try_invariant {R A : Type} (P : list R -> Prop) (body : A -> M R unit) :
  (forall x w, P (out w) -> P (out (snd (body x w)))) ->
  forall l w, P (out w) -> P (out (snd (for_each_try body l w))).
Proof.
  intros Hbody l. induction l as [|x l IH]; intros w Hw; simpl; [exact Hw|].
  apply IH, Hbody, Hw.
Qed.

(** C9.  Every row either extractor returns has a non-empty [location] and
    a non-empty [date].  A record whose [StationName] and name keys resolve
    to nothing is named ["Unknown"], and a record without a resolvable
    timestamp is dated by the clock, read at that moment. *)
Theorem location_and_date_never_empty :
  forall (data : json) (now : nat),
    (forall rows, parse_locations clock data now = Ok rows ->
                  Forall well_formed_obs rows)
    /\ (forall rows, parse_precipitation clock data now = Ok rows ->
                     Forall well_formed_precip rows)
    /\ (forall loc : dict,
           truthy (get loc "StationName") = false ->
           truthy (first_available loc
                     ["locationName"; "location"; "name"; "area"; "county"; "city"]) = false ->
           location_name_of loc = Ok (JStr "Unknown"))
    /\ (forall (R : Type) (loc : dict) (date_val : json) (w : world R),
           truthy date_val = false ->
           truthy (first_available loc ["date"; "forecastDate"; "dataTime"]) = false ->
           date_fallback clock loc date_val w
           = (Ok (JStr (isoformat (clock (ticks w)))),
              {| out := out w; ticks := S (ticks w) |})).
Proof.
  intros data now. repeat split.
  - unfold parse_locations. destruct (located_obs data) as [locations|]; [|discriminate].
    simpl. intros rows H; inversion H; subst.
    apply (for_each_try_invariant (Forall well_formed_obs)).
    + intros x w. apply obs_body_well_formed.
    + constructor.
  - unfold parse_precipitation.
    destruct (located_precip data) as [locations|]; [|discriminate].
    simpl. intros rows H; inversion H; subst.
    apply (for_each_try_invariant (Forall well_formed_precip)).
    + intros x w. apply precip_body_well_formed.
    + constructor.
  - intros loc Hs Hk. unfold location_name_of.
    assert (Hn : truthy (if has_key loc "StationName"
                         then get loc "StationName" else JNull) = false)
      by (destruct (has_key loc "StationName"); [exact Hs | reflexivity]).
    rewrite Hn, get_first_available_dict. unfold rbind, py_or. rewrite Hk. reflexivity.
  - intros R loc date_val w Hd Hk. unfold date_fallback. rewrite Hd.
    unfold bind, lift. rewrite get_first_available_dict, Hk. reflexivity.
Qed.

(** ** The rainfall map *)

(** C8, amended.  For a station record whose name and date resolve without
    an exception and whose rainfall map is an object of N entries, the body
    of [parse_precipitation] appends exactly N rows, one per entry in the
    order of the map, each with the entry's key as period.  The value is
    [sub] itself when [sub] is not an object, and for an object the value
    the Key Resolver finds, whenever that value is truthy or null; a value
    that is null, empty or rejected by [float] gives a row without
    precipitation, and no row is dropped. *)
Theorem rainfall_map_flattened :
  forall (loc rf : dict) (name date_val : json) (w w1 : world precip_row),
    location_name_of loc = Ok name ->
    precip_date clock loc w = (Ok date_val, w1) ->
    rainfall_of loc = JDict rf ->
    precip_body clock (JDict loc) w
    = (Ok tt,
       {| out := (out w
                  ++ map (fun entry =>
                            {| p_location := py_str name;
                               p_date := py_str date_val;
                               p_period := fst entry;
                               p_precipitation :=
                                 coerce (resolved_precipitation (snd entry)) |}) rf)%list;
          ticks := ticks w1 |})
    /\ List.length (out (snd (precip_body clock (JDict loc) w)))
       = (List.length (out w) + List.length rf)%nat
    /\ (forall sub : json, is_dict sub = false -> resolved_precipitation sub = sub)
    /\ (forall (d : dict) (v : json),
           first_available d ["Precipitation"; "Precip"; "Value"; "precipitation"; "value"] = v ->
           truthy v = true \/ v = JNull ->
           resolved_precipitation (JDict d) = v)
    /\ (forall (val : json) (f : pyfloat),
           none_or_empty val = false -> py_float val = Ok f -> coerce val = Some f)
    /\ (forall val : json,
           none_or_empty val = true \/ is_raise (py_float val) = true ->
           coerce val = None).
Proof.
  intros loc rf name date_val w w1 Hn Hd Hrf.
  assert (Hbody : precip_body clock (JDict loc) w
                  = (Ok tt,
                     {| out := (out w
                                ++ map (fun entry =>
                                          {| p_location := py_str name;
                                             p_date := py_str date_val;
                                             p_period := fst entry;
                                             p_precipitation :=
                                               coerce (resolved_precipitation (snd entry)) |})
                                       rf)%list;
                        ticks := ticks w1 |})).
  { unfold precip_body, bind, lift. rewrite Hn, Hd, Hrf, precip_entries.
    rewrite <- (keeps_out_precip_date loc w), Hd. reflexivity. }
  split; [exact Hbody|]. split; [|split; [|split; [|split]]].
  - rewrite Hbody. simpl. rewrite List.length_app, List.length_map. reflexivity.
  - intros sub Hsub. destruct sub; try reflexivity. discriminate.
  - intros d v Hv Ht. unfold resolved_precipitation, py_or. rewrite Hv.
    destruct Ht as [Ht | ->]; [rewrite Ht|]; reflexivity.
  - intros val f Hval Hf. unfold coerce. rewrite Hval, Hf. reflexivity.
  - intros val [Hval | Hval]; unfold coerce.
    + rewrite Hval. reflexivity.
    + destruct (none_or_empty val); [reflexivity|].
      destruct (py_float val); [discriminate | reflexivity].
Qed.

(** ** The element classifier *)

Lemma nested_value_ok (element : dict) : exists v, nested_value element = Ok v.
Proof.
  unfold nested_value.
  destruct (lookup element "time") as [[| | | | |[|t0 ?]|]|]; try (eexists; reflexivity).
  destruct t0; try (eexists; reflexivity).
  eexists. rewrite get_first_available_dict. reflexivity.
Qed.

Lemma element_value_ok (element : dict) : exists v, element_value element = Ok v.
Proof.
  unfold element_value.
  destruct (nested_value_ok element) as [v1 ->]. unfold rbind at 1.
  destruct (is_none v1); eexists.
  - rewrite get_first_available_dict. reflexivity.
  - reflexivity.
Qed.

Lemma element_value_value_of (element : dict) :
  element_value element = Ok (value_of (JDict element)).
Proof.
  destruct (element_value_ok element) as [v Hv]. simpl. rewrite Hv. reflexivity.
Qed.

Lemma lowered_name_ok (name : json) (lname : string) :
  (if truthy name then py_lower (py_or name (JStr EmptyString)) else Ok EmptyString)
  = Ok lname ->
  lname = match name with
          | JStr s => lower s
          | _ => EmptyString
          end.
Proof.
  unfold py_or. destruct (truthy name) eqn:E.
  - destruct name; simpl; try discriminate. intros H; inversion H; reflexivity.
  - intros H; inversion H. destruct name as [| | | |s| |]; try reflexivity.
    destruct s; [reflexivity | discriminate].
Qed.

(** One iteration of the scan, when it does not raise. *)
Lemma scan_element_ok (st st' : scan) (element : json) :
  scan_element st element = Ok st' ->
  st' = assign (category_of element) (value_of element) st.
Proof.
  destruct element as [| | | | | |e];
    try (simpl; intros H; inversion H; reflexivity).
  unfold scan_element, category_of, classify, lowered_name.
  rewrite element_value_value_of. unfold rbind at 1.
  destruct (if truthy (element_name e) then _ else _) as [lname|] eqn:El;
    [|discriminate].
  apply lowered_name_ok in El. rewrite <- El. unfold rbind.
  destruct (any_in ["mint"; "min"; "tmin"] lname);
    [intros H; inversion H; reflexivity|].
  destruct (any_in ["maxt"; "max"; "tmax"] lname);
    [intros H; inversion H; reflexivity|].
  destruct (any_in ["wx"; "weather"; "description"; "wxvalue"; "wx_desc"] lname);
    [intros H; inversion H; reflexivity|].
  destruct (any_in ["temp"] lname); intros H; inversion H; reflexivity.
Qed.

Lemma find_snoc {A : Type} (p : A -> bool) (l : list A) (x : A) :
  find p (l ++ [x])%list
  = match find p l with
    | Some y => Some y
    | None => if p x then Some x else None
    end.
Proof.
  induction l as [|y l IH]; simpl; [reflexivity|].
  destruct (p y); [reflexivity | exact IH].
Qed.

Lemma scan_field_assign (c : category) (element : json) (st : scan) :
  scan_field c (assign (category_of element) (value_of element) st)
  = if in_category c element then value_of element else scan_field c st.
Proof.
  unfold in_category. destruct (category_of element) as [[]|]; destruct c; reflexivity.
Qed.

(** After the scan, each of the three variables holds the value of the last
    element of its category, or what it held before when there is none. *)
Lemma scan_elements_last (c : category) (es : list json) :
  forall st st' : scan,
    scan_elements st es = Ok st' ->
    scan_field c st'
    = match find (in_category c) (rev es) with
      | Some element => value_of element
      | None => scan_field c st
      end.
Proof.
  induction es as [|element es IH]; intros st st' H; simpl in *.
  - inversion H; reflexivity.
  - destruct (scan_element st element) as [st1|] eqn:E; [|discriminate]. simpl in H.
    rewrite (IH _ _ H), find_snoc.
    destruct (find (in_category c) (rev es)); [reflexivity|].
    rewrite (scan_element_ok _ _ _ E), scan_field_assign.
    destruct (in_category c element); reflexivity.
Qed.

(** C6, amended.  In a station record with a [weatherElement] list that is
    extracted without an exception, an element falls in the first of the
    categories min_temp, max_temp, description one of whose keywords its
    lowercased name contains, and in none otherwise (plain ["temp"]
    included); the row holds, for min_temp and max_temp, the value of the
    last element of the category, and for description that value when it
    is truthy, the record-level keys being consulted otherwise. *)
Theorem classification_last_match_wins :
  forall (loc : dict) (es : list json) (w w' : world obs_row),
    lookup loc "weatherElement" = Some (JList es) ->
    obs_body clock (JDict loc) w = (Ok tt, w') ->
    (exists row : obs_row,
        out w' = (out w ++ [row])%list
        /\ min_temp row = emit (last_value MinTemp es)
        /\ max_temp row = emit (last_value MaxTemp es)
        /\ description row
           = emit (let d := last_value Description es in
                   if truthy d then d
                   else py_or (first_available loc
                                 ["description"; "weather"; "wx"; "parameterName"]) d))
    /\ (forall (st st' : scan) (element : json),
           scan_element st element = Ok st' ->
           st' = assign (category_of element) (value_of element) st)
    /\ classify "temp" = None.
Proof.
  intros loc es w w' Hes H. split; [|split].
  - apply obs_body_ok in H.
    destruct H as (name & date_val & st & descr & w1 & _ & _ & Hs & Hx & ->).
    unfold scan_record in Hs. rewrite Hes in Hs.
    pose proof (scan_elements_last MinTemp es _ _ Hs) as Hmin.
    pose proof (scan_elements_last MaxTemp es _ _ Hs) as Hmax.
    pose proof (scan_elements_last Description es _ _ Hs) as Hdesc.
    simpl in Hmin, Hmax, Hdesc.
    eexists. split; [reflexivity|]. simpl. unfold last_value.
    rewrite Hmin, Hmax. split; [reflexivity|]. split; [reflexivity|].
    unfold description_of in Hx. rewrite get_first_available_dict in Hx.
    rewrite Hdesc in Hx. f_equal.
    destruct (truthy (match find (in_category Description) (rev es) with
                      | Some element => value_of element
                      | None => JNull
                      end)); simpl in Hx; inversion Hx; reflexivity.
  - intros st st' element. apply scan_element_ok.
  - reflexivity.
Qed.

(** ** The Record-List Locator *)

Lemma station_wrapper_get (data : json) : station_wrapper data = _get_station_list data.
Proof.
  unfold station_wrapper. destruct data as [| | | | | |top]; try reflexivity. simpl.
  destruct (lookup top "cwaopendata") as [[| | | | | |c]|]; try reflexivity.
  unfold get, get_default.
  destruct (lookup c "dataset") as [[| | | | | |ds]|]; try reflexivity.
  destruct (lookup ds "Station") as [[]|]; reflexivity.
Qed.

Lemma comprehension_properties (features : list json) :
  forallb is_dict features = true ->
  comprehension (fun f => py_get f "properties" (JDict [])) features
  = Ok (map properties_or_empty features).
Proof.
  induction features as [|f features IH]; simpl; [reflexivity|].
  destruct f; simpl; try discriminate. intros H. rewrite (IH H). simpl.
  unfold properties_or_empty, get_default. simpl.
  destruct (lookup d "properties"); reflexivity.
Qed.

Lemma top_level_obs_guarded (top : dict) :
  features_are_objects (JDict top) = true ->
  top_level_obs top JNull
  = Ok match first_success
               [top_level "location"; top_level "locations"; geojson_features]
               (JDict top) with
       | Some l => JList l
       | None => JNull
       end.
Proof.
  unfold features_are_objects, top_level_obs, top_level, geojson_features. simpl.
  destruct (lookup top "location") as [[]|];
    destruct (lookup top "locations") as [[]|];
    try reflexivity;
    destruct (lookup top "features") as [[]|];
    try reflexivity;
    intros H; rewrite (comprehension_properties _ H); reflexivity.
Qed.

Lemma iterate_located (top : dict) (chosen : option (list json)) :
  (locations <- Ok match chosen with
                   | Some l => JList l
                   | None => JNull
                   end ;;
   (if truthy locations then py_iter locations
    else if is_dict (JDict top) then Ok [JDict top] else Ok []))
  = Ok match chosen with
       | Some (x :: l) => x :: l
       | _ => [JDict top]
       end.
Proof. destruct chosen as [[|x l]|]; reflexivity. Qed.

Lemma located_without_wrapper (data : json) :
  records_location_listed data = true ->
  features_are_objects data = true ->
  (locations <- match data with
                | JDict top => top_level_obs top (records_obs top)
                | JList _ => Ok data
                | _ => Ok JNull
                end ;;
   (if truthy locations then py_iter locations
    else if is_dict data then Ok [data] else Ok []))
  = Ok match first_success
               [records_list; top_level "location"; top_level "locations";
                geojson_features; bare_list] data with
       | Some (x :: l) => x :: l
       | _ => if is_dict data then [data] else []
       end.
Proof.
  intros Hr Hf. destruct data as [| | | | |l|top]; try reflexivity.
  - destruct l; reflexivity.
  - assert (Hnone : top_level_obs top JNull
                    = Ok match first_success
                                 [top_level "location"; top_level "locations";
                                  geojson_features; bare_list] (JDict top) with
                         | Some l => JList l
                         | None => JNull
                         end).
    { rewrite (top_level_obs_guarded top Hf). cbn [first_success].
      destruct (top_level "location" (JDict top)); [reflexivity|].
      destruct (top_level "locations" (JDict top)); [reflexivity|].
      destruct (geojson_features (JDict top)); reflexivity. }
    assert (Hsome : forall l, top_level_obs top (JList l) = Ok (JList l))
      by reflexivity.
    unfold records_obs. unfold records_location_listed in Hr. simpl in Hr.
    change (first_success (records_list :: ?hs) (JDict top))
      with (match records_list (JDict top) with
            | Some l => Some l
            | None => first_success hs (JDict top)
            end).
    unfold records_list. simpl at_path.
    destruct (lookup top "records") as [[| | | | |rec|rec]|]; simpl as_list;
      try (rewrite Hnone; apply iterate_located).
    + rewrite Hsome. apply (iterate_located top (Some rec)).
    + destruct (lookup rec "location") as [[| | | | |l|]|]; try discriminate;
        simpl as_list; try (rewrite Hnone; apply iterate_located).
      rewrite Hsome. apply (iterate_located top (Some l)).
Qed.

(** C4, amended.  On a document whose [records.location], if any, is a
    list or null and whose [features], if a list, holds objects only, the
    locator of [parse_locations] returns the list of the first heuristic
    that succeeds, in the order station wrapper, [records.location] or
    [records], [location], [locations], the [properties] of [features],
    the bare list; the station wrapper succeeds only with a non-empty list;
    when the list selected is empty or no heuristic succeeds, an object
    document is wrapped as the single record, and the result is empty for
    any other document. *)
Theorem locator_tries_heuristics_in_order :
  forall data : json,
    records_location_listed data = true ->
    features_are_objects data = true ->
    located_obs data = Ok (locate_guarded data).
Proof.
  intros data Hr Hf. unfold located_obs, locations_obs, locate_guarded.
  cbn [first_success]. unfold when_nonempty at 1. rewrite station_wrapper_get.
  destruct (_get_station_list data) as [[|x st]|] eqn:Es; cbn [nonempty_list];
    [| reflexivity |]; exact (located_without_wrapper data Hr Hf).
Qed.

Lemma locations_precip_obs (data : json) :
  wrapper_without_records data = true ->
  locations_precip data = locations_obs data.
Proof.
  unfold wrapper_without_records, locations_precip, locations_obs.
  destruct (nonempty_list (_get_station_list data)) as [stations|] eqn:Es.
  - destruct data as [| | | | | |top]; try discriminate.
    simpl at_path. unfold records_precip.
    destruct (lookup top "records"); [discriminate | reflexivity].
  - intros _. destruct data; reflexivity.
Qed.

(** C5, amended.  On a document in which a non-empty station wrapper does
    not come with a [records] key, the locator of [parse_precipitation]
    returns what the locator of [parse_locations] returns (the same list,
    or the same exception), except where the latter wraps the document as
    its single record: there the precipitation extractor has no record. *)
Theorem precipitation_locator_agrees :
  forall data : json,
    wrapper_without_records data = true ->
    located_precip data
    = if wraps_document data then Ok [] else located_obs data.
Proof.
  intros data H. unfold located_precip, located_obs, wraps_document.
  rewrite (locations_precip_obs data H).
  destruct (locations_obs data) as [locations|]; [|reflexivity]. simpl.
  destruct (truthy locations); [reflexivity|].
  destruct (is_dict data); reflexivity.
Qed.

(** ** Where the code departs from the specification *)

(** C1.  Locating the record list raises on a [features] list that holds a
    value without a [get] method, and on a [records.location] that cannot
    be iterated; neither function catches the exception. *)
Theorem locator_raises :
  forall now : nat,
    parse_locations clock (JDict [("features", JList [JInt 1])]) now
    = Raise AttributeError
    /\ parse_precipitation clock (JDict [("features", JList [JInt 1])]) now
       = Raise AttributeError
    /\ parse_locations clock (JDict [("records", JDict [("location", JInt 5)])]) now
       = Raise TypeError
    /\ parse_precipitation clock (JDict [("records", JDict [("location", JInt 5)])]) now
       = Raise TypeError.
Proof. intros now. repeat split; reflexivity. Qed.

(** C2.  A row whose [min_temp] or [max_temp] is a non-empty string that
    [float] rejects is not inserted: the exception leaves the [try] block
    before the [INSERT], and the loop goes on with the next row. *)
Theorem insert_rows_drops_unparsable_temperature :
  forall (conn : list weather_record * nat) (r : obs_row) (rest : list obs_row)
         (s : string),
    min_temp r = Some s \/ max_temp r = Some s ->
    nonempty s = true ->
    float_of_string s = None ->
    insert_rows_from conn (r :: rest) = insert_rows_from conn rest.
Proof.
  intros conn r rest s Hs Hne Hf. simpl. f_equal. unfold insert_row.
  assert (Hraise : to_float (Some s) = Raise ValueError)
    by (unfold to_float; rewrite Hne; simpl; rewrite Hf; reflexivity).
  destruct Hs as [Hmin | Hmax].
  - rewrite Hmin, Hraise. reflexivity.
  - rewrite Hmax, Hraise. destruct (to_float (min_temp r)); reflexivity.
Qed.

(** C7.  An element whose [time[0]] has a [startTime] and neither
    [parameter] nor [elementValue] takes that timestamp as its value; the
    [value] key of the element is not consulted, and the timestamp is what
    the row holds as [min_temp]. *)
Theorem timestamp_taken_as_element_value :
  forall now : nat,
    element_value
      [("elementName", JStr "MinT");
       ("time", JList [JDict [("startTime", JStr "2024-01-01T06:00:00")]]);
       ("value", JStr "18")]
    = Ok (JStr "2024-01-01T06:00:00")
    /\ parse_locations clock
         (JList [JDict [("locationName", JStr "A");
                        ("weatherElement",
                         JList [JDict [("elementName", JStr "MinT");
                                       ("time", JList [JDict [("startTime",
                                                               JStr "2024-01-01T06:00:00")]]);
                                       ("value", JStr "18")]])]]) now
       = Ok [{| location := "A";
                date := "2024-01-01T06:00:00";
                min_temp := Some "2024-01-01T06:00:00";
                max_temp := None;
                description := None |}].
Proof. intros now. split; reflexivity. Qed.

End Properties.

(** * Further properties of the code *)

Section Further.

Context {PF : PyFloat}.
Variable clock : nat -> datetime.

(** ** [_get_first_available] *)

Lemma first_available_found (d : dict) (keys : list string) :
  (first_available d keys = JNull /\ Forall (unavailable d) keys)
  \/ (exists pre k post,
         keys = (pre ++ k :: post)%list
         /\ Forall (unavailable d) pre
         /\ lookup d k = Some (first_available d keys)
         /\ none_or_empty (first_available d keys) = false).
Proof.
  induction keys as [|k keys IH]; simpl.
  - left. split; [reflexivity | constructor].
  - assert (Hskip : unavailable d k ->
                    (first_available d keys = JNull /\ Forall (unavailable d) (k :: keys))
                    \/ (exists pre k0 post,
                           (k :: keys) = (pre ++ k0 :: post)%list
                           /\ Forall (unavailable d) pre
                           /\ lookup d k0 = Some (first_available d keys)
                           /\ none_or_empty (first_available d keys) = false)).
    { intros Hk. destruct IH as [[Hnull Hall] | (pre & k0 & post & -> & Hpre & Hk0 & Hv)].
      - left. split; [exact Hnull | constructor; assumption].
      - right. exists (k :: pre), k0, post. repeat split; try assumption.
        constructor; assumption. }
    destruct (lookup d k) as [v|] eqn:Ek;
      [|apply Hskip; unfold unavailable; rewrite Ek; exact I].
    destruct (none_or_empty v) eqn:Ev;
      [apply Hskip; unfold unavailable; rewrite Ek; exact Ev|].
    right. exists [], k, keys. repeat split; try assumption. constructor.
Qed.

(** X1.  On an object the Key Resolver never raises.  It returns the value
    of the first candidate key that is present with a value other than
    [None] and the empty string, every earlier candidate being absent or so
    bound; it returns [None] exactly when no candidate qualifies. *)
Theorem key_resolver_on_object :
  forall (d : dict) (keys : list string),
    exists v : json,
      _get_first_available (JDict d) keys = Ok v
      /\ ((v = JNull /\ Forall (unavailable d) keys)
          \/ (exists pre k post,
                 keys = (pre ++ k :: post)%list
                 /\ Forall (unavailable d) pre
                 /\ lookup d k = Some v
                 /\ none_or_empty v = false)).
Proof.
  intros d keys. exists (first_available d keys).
  split; [apply get_first_available_dict | apply first_available_found].
Qed.

(** X2.  On a value that is not an object the Key Resolver never returns a
    value: on a string it raises [TypeError] when a candidate key occurs in
    the string and returns [None] otherwise; on a list it does so by
    membership; on null, a boolean or a number it raises [TypeError] as
    soon as there is a candidate key. *)
Theorem key_resolver_on_non_object :
  forall (obj : json) (keys : list string),
    is_dict obj = false ->
    _get_first_available obj keys
    = match obj with
      | JStr s =>
          if existsb (fun k => contains k s) keys then Raise TypeError else Ok JNull
      | JList l =>
          if existsb (fun k =>
                        existsb (fun x => match x with
                                          | JStr s => String.eqb s k
                                          | _ => false
                                          end) l) keys
          then Raise TypeError else Ok JNull
      | _ =>
          match keys with
          | [] => Ok JNull
          | _ :: _ => Raise TypeError
          end
      end.
Proof.
  intros obj keys Hobj.
  destruct obj as [|b|z|f|s|l|d]; try discriminate;
    try (destruct keys; reflexivity).
  - induction keys as [|k keys IH]; simpl; [reflexivity|].
    destruct (contains k s); simpl; [reflexivity | exact IH].
  - induction keys as [|k keys IH]; simpl; [reflexivity|].
    destruct (existsb _ l); simpl; [reflexivity | exact IH].
Qed.

Lemma get_first_available_not_none (obj : json) (keys : list string) (v : json) :
  _get_first_available obj keys = Ok v -> v = JNull \/ none_or_empty v = false.
Proof.
  induction keys as [|k keys IH]; simpl.
  - intros H; inversion H. left; reflexivity.
  - destruct (py_in k obj) as [[|]|]; simpl; try discriminate; try exact IH.
    destruct (py_getitem obj k) as [x|]; simpl; try discriminate.
    destruct (none_or_empty x) eqn:Ex; [exact IH|].
    intros H; inversion H; subst. right. exact Ex.
Qed.

(** X3.  Candidate keys are a priority list: on any value, resolving over
    [keys1 ++ keys2] is resolving over [keys1] and, only when that gives
    [None], over [keys2]; an exception of the first part is the exception
    of the whole. *)
Theorem key_resolver_priority :
  forall (obj : json) (keys1 keys2 : list string),
    _get_first_available obj (keys1 ++ keys2)%list
    = match _get_first_available obj keys1 with
      | Ok v => if is_none v then _get_first_available obj keys2 else Ok v
      | Raise e => Raise e
      end.
Proof.
  intros obj keys1 keys2. induction keys1 as [|k keys1 IH]; simpl; [reflexivity|].
  destruct (py_in k obj) as [[|]|]; simpl; try reflexivity; try exact IH.
  destruct (py_getitem obj k) as [x|]; simpl; try reflexivity.
  destruct (none_or_empty x) eqn:Ex; [exact IH|].
  destruct x; try reflexivity. discriminate.
Qed.

(** ** The keywords of the classifier *)

Lemma prefix_trans (a b s : string) :
  String.prefix a b = true -> String.prefix b s = true -> String.prefix a s = true.
Proof.
  revert b s. induction a as [|c a IH]; intros b s Hab Hbs;
    [destruct s; reflexivity|].
  destruct b as [|c' b]; [discriminate|].
  destruct s as [|c'' s]; [discriminate|]. simpl in *.
  destruct (ascii_dec c c') as [->|]; [|discriminate].
  destruct (ascii_dec c' c'') as [->|]; [|discriminate].
  destruct (ascii_dec c'' c'') as [_|Hn]; [|exfalso; apply Hn; reflexivity].
  exact (IH _ _ Hab Hbs).
Qed.

Lemma contains_tail (needle : string) (c : ascii) (s : string) :
  contains needle s = true -> contains needle (String c s) = true.
Proof. intros H. simpl. rewrite H. apply orb_true_r. Qed.

Lemma prefix_contains (needle s : string) :
  String.prefix needle s = true -> contains needle s = true.
Proof. intros H. destruct s; simpl in *; rewrite H; reflexivity. Qed.

(** A string that contains [b] contains every prefix of [b]. *)
Lemma contains_of_prefix (a b s : string) :
  String.prefix a b = true -> contains b s = true -> contains a s = true.
Proof.
  intros Hab. induction s as [|c s IH]; intros H.
  - change (String.prefix b EmptyString || false = true) in H.
    rewrite orb_false_r in H. apply prefix_contains.
    exact (prefix_trans _ _ _ Hab H).
  - change (String.prefix b (String c s) || contains b s = true) in H.
    apply orb_true_iff in H. destruct H as [H | H].
    + apply prefix_contains. exact (prefix_trans _ _ _ Hab H).
    + apply contains_tail. exact (IH H).
Qed.

(** A string that contains [String c b] contains [b]. *)
Lemma contains_of_tail (c : ascii) (b s : string) :
  contains (String c b) s = true -> contains b s = true.
Proof.
  induction s as [|c' s IH]; intros H.
  - discriminate.
  - change (String.prefix (String c b) (String c' s) || contains (String c b) s = true) in H.
    apply orb_true_iff in H. destruct H as [H | H].
    + simpl in H. destruct (ascii_dec c c'); [|discriminate].
      apply contains_tail, prefix_contains. exact H.
    + apply contains_tail. exact (IH H).
Qed.

(** X4.  Six of the eleven keywords of the classifier change nothing: a
    lowercased name is min_temp exactly when it contains ["min"], max_temp
    when it contains ["max"], description when it contains ["wx"],
    ["weather"] or ["description"]; ["mint"], ["tmin"], ["maxt"], ["tmax"],
    ["wxvalue"] and ["wx_desc"] are covered by these. *)
Theorem classifier_keywords :
  forall lname : string,
    any_in ["mint"; "min"; "tmin"] lname = contains "min" lname
    /\ any_in ["maxt"; "max"; "tmax"] lname = contains "max" lname
    /\ any_in ["wx"; "weather"; "description"; "wxvalue"; "wx_desc"] lname
       = contains "wx" lname || contains "weather" lname || contains "description" lname.
Proof.
  intros lname. unfold any_in. simpl. rewrite !orb_false_r. repeat split.
  - destruct (contains "min" lname) eqn:E.
    + rewrite orb_true_r. reflexivity.
    + destruct (contains "mint" lname) eqn:E1.
      * rewrite (contains_of_prefix "min" "mint" lname eq_refl E1) in E. discriminate.
      * destruct (contains "tmin" lname) eqn:E2; [|reflexivity].
        rewrite (contains_of_tail _ _ _ E2) in E. discriminate.
  - destruct (contains "max" lname) eqn:E.
    + rewrite orb_true_r. reflexivity.
    + destruct (contains "maxt" lname) eqn:E1.
      * rewrite (contains_of_prefix "max" "maxt" lname eq_refl E1) in E. discriminate.
      * destruct (contains "tmax" lname) eqn:E2; [|reflexivity].
        rewrite (contains_of_tail _ _ _ E2) in E. discriminate.
  - destruct (contains "wx" lname) eqn:E; [reflexivity|].
    destruct (contains "wxvalue" lname) eqn:E1.
    + rewrite (contains_of_prefix "wx" "wxvalue" lname eq_refl E1) in E. discriminate.
    + destruct (contains "wx_desc" lname) eqn:E2.
      * rewrite (contains_of_prefix "wx" "wx_desc" lname eq_refl E2) in E. discriminate.
      * simpl. rewrite !orb_false_r. reflexivity.
Qed.

(** ** Name and date of a station record *)

Lemma location_name_value (loc : dict) :
  location_name_of loc
  = Ok (py_or (get loc "StationName")
              (py_or (first_available loc
                        ["locationName"; "location"; "name"; "area"; "county"; "city"])
                     (JStr "Unknown"))).
Proof.
  unfold location_name_of.
  assert (Hget : (if has_key loc "StationName" then get loc "StationName" else JNull)
                 = get loc "StationName")
    by (unfold has_key, get, get_default; destruct (lookup loc "StationName"); reflexivity).
  rewrite Hget.
  destruct (truthy (get loc "StationName")) eqn:E.
  - unfold py_or at 1. rewrite E. reflexivity.
  - rewrite get_first_available_dict. unfold py_or at 2. rewrite E. reflexivity.
Qed.

(** X5.  A truthy [StationName] is the location of every row either
    extractor emits for the record, whatever its other name keys hold. *)
Theorem station_name_preferred :
  forall (loc : dict) (v : json),
    lookup loc "StationName" = Some v ->
    truthy v = true ->
    (forall w w' : world obs_row,
        obs_body clock (JDict loc) w = (Ok tt, w') ->
        exists row : obs_row,
          out w' = (out w ++ [row])%list /\ location row = py_str v)
    /\ (forall w w' : world precip_row,
           precip_body clock (JDict loc) w = (Ok tt, w') ->
           exists new : list precip_row,
             out w' = (out w ++ new)%list
             /\ Forall (fun r => p_location r = py_str v) new).
Proof.
  intros loc v Hv Ht.
  assert (Hname : location_name_of loc = Ok v).
  { rewrite location_name_value. unfold get, get_default, py_or. rewrite Hv, Ht.
    reflexivity. }
  split; intros w w' H.
  - apply obs_body_ok in H.
    destruct H as (name & date_val & st & descr & w1 & Hn & _ & _ & _ & ->).
    rewrite Hname in Hn. inversion Hn; subst.
    eexists. split; reflexivity.
  - apply precip_body_ok in H. destruct H as (name & date_val & w1 & Hn & _ & ->).
    rewrite Hname in Hn. inversion Hn; subst.
    eexists. split; [reflexivity|].
    destruct (rainfall_of loc); try constructor.
    apply Forall_map, Forall_forall. intros entry _. reflexivity.
Qed.

Lemma date_of_weather_elements_resolved (loc : dict) (date_val : json) :
  truthy date_val = true -> date_of_weather_elements loc date_val = Ok date_val.
Proof. intros H. unfold date_of_weather_elements. rewrite H. reflexivity. Qed.

Lemma date_fallback_resolved {R : Type} (loc : dict) (date_val : json) (w : world R) :
  truthy date_val = true -> date_fallback clock loc date_val w = (Ok date_val, w).
Proof. intros H. unfold date_fallback. rewrite H. reflexivity. Qed.

(** X6.  The two extractors rank the date sources differently.  For a
    record whose [time] list starts with an object that resolves a date and
    whose [ObsTime] object has a truthy [DateTime], [parse_locations] dates
    the row by the [time] list and [parse_precipitation] by
    [ObsTime.DateTime]; neither reads the clock. *)
Theorem date_sources_ranked_differently :
  forall (loc t obs_time : dict) (rest : list json) (v : json)
         (wo : world obs_row) (wp : world precip_row),
    lookup loc "time" = Some (JList (JDict t :: rest)) ->
    first_available t ["startTime"; "dataTime"; "time"] = v ->
    truthy v = true ->
    lookup loc "ObsTime" = Some (JDict obs_time) ->
    truthy (get obs_time "DateTime") = true ->
    obs_date clock loc wo = (Ok v, wo)
    /\ precip_date clock loc wp = (Ok (get obs_time "DateTime"), wp).
Proof.
  intros loc t obs_time rest v wo wp Htime Hv Ht Hobs Hdt. split.
  - assert (H1 : date_of_time_list loc JNull = Ok v).
    { unfold date_of_time_list. rewrite Htime, get_first_available_dict, Hv.
      unfold rbind, py_or. rewrite Ht. reflexivity. }
    unfold obs_date, bind at 1, lift at 1. rewrite H1. rewrite Ht.
    cbv beta iota delta [negb]. unfold bind at 1, lift at 1.
    rewrite (date_of_weather_elements_resolved loc v Ht).
    apply date_fallback_resolved. exact Ht.
  - assert (Hp : py_or (get obs_time "DateTime") JNull = get obs_time "DateTime")
      by (unfold py_or; rewrite Hdt; reflexivity).
    unfold precip_date. rewrite Hobs, Hp.
    unfold bind at 1, lift at 1. rewrite Hdt. cbv beta iota delta [negb].
    unfold bind at 1, lift at 1.
    rewrite (date_of_weather_elements_resolved loc _ Hdt).
    apply date_fallback_resolved. exact Hdt.
Qed.

(** ** Records that cannot fail *)

Lemma date_fallback_returns {R : Type} (loc : dict) (date_val : json) (w : world R) :
  exists d w1, date_fallback clock loc date_val w = (Ok d, w1) /\ out w1 = out w.
Proof.
  unfold date_fallback. destruct (truthy date_val).
  - exists date_val, w. split; reflexivity.
  - unfold bind, lift. rewrite get_first_available_dict.
    destruct (truthy (first_available loc _)); eexists; eexists; split; reflexivity.
Qed.

Lemma date_of_time_list_absent (loc : dict) (date_val : json) :
  has_key loc "time" = false -> date_of_time_list loc date_val = Ok date_val.
Proof.
  unfold has_key, date_of_time_list. destruct (lookup loc "time"); [discriminate|].
  reflexivity.
Qed.

Lemma date_of_weather_elements_absent (loc : dict) (date_val : json) :
  has_key loc "weatherElement" = false ->
  date_of_weather_elements loc date_val = Ok date_val.
Proof.
  unfold has_key, date_of_weather_elements.
  destruct (lookup loc "weatherElement"); [discriminate|].
  destruct (truthy date_val); reflexivity.
Qed.

Lemma obs_date_returns (loc : dict) (w : world obs_row) :
  has_key loc "time" = false ->
  has_key loc "weatherElement" = false ->
  exists d w1, obs_date clock loc w = (Ok d, w1) /\ out w1 = out w.
Proof.
  intros Ht He. unfold obs_date, bind at 1, lift at 1.
  rewrite (date_of_time_list_absent _ _ Ht).
  unfold bind at 1, lift at 1. rewrite (date_of_weather_elements_absent _ _ He).
  apply date_fallback_returns.
Qed.

Lemma precip_date_returns (loc : dict) (w : world precip_row) :
  has_key loc "time" = false ->
  has_key loc "weatherElement" = false ->
  exists d w1, precip_date clock loc w = (Ok d, w1) /\ out w1 = out w.
Proof.
  intros Ht He. unfold precip_date, bind at 1, lift at 1.
  assert (H1 : forall d, (if negb (truthy d) then date_of_time_list loc d else Ok d) = Ok d)
    by (intros d; rewrite (date_of_time_list_absent _ _ Ht); destruct (negb (truthy d));
        reflexivity).
  rewrite H1. unfold bind at 1, lift at 1.
  rewrite (date_of_weather_elements_absent _ _ He).
  apply date_fallback_returns.
Qed.

(** X7.  A station record without the keys [time] and [weatherElement]
    cannot fail in [parse_locations]: the body appends exactly one row,
    without temperatures, whose description is the truthy value of the
    record-level keys or absent. *)
Theorem plain_record_gives_one_row :
  forall (loc : dict) (w : world obs_row),
    has_key loc "time" = false ->
    has_key loc "weatherElement" = false ->
    exists (row : obs_row) (w' : world obs_row),
      obs_body clock (JDict loc) w = (Ok tt, w')
      /\ out w' = (out w ++ [row])%list
      /\ min_temp row = None
      /\ max_temp row = None
      /\ description row
         = emit (py_or (first_available loc
                          ["description"; "weather"; "wx"; "parameterName"]) JNull).
Proof.
  intros loc w Ht He.
  destruct (obs_date_returns loc w Ht He) as (d & w1 & Hd & Ho).
  unfold obs_body, bind at 1, lift at 1. rewrite location_name_value.
  unfold bind at 1. rewrite Hd. unfold bind at 1, lift at 1.
  assert (Hs : scan_record loc = Ok scan_init).
  { unfold scan_record. unfold has_key in He.
    destruct (lookup loc "weatherElement"); [discriminate | reflexivity]. }
  rewrite Hs. unfold bind, lift, description_of. cbn [scan_description scan_init truthy negb].
  rewrite get_first_available_dict. cbn [rbind]. unfold append.
  eexists. eexists. split; [reflexivity|]. simpl. rewrite Ho.
  repeat split; reflexivity.
Qed.

(** X8.  A station record without the keys [time] and [weatherElement]
    whose rainfall map is an object cannot fail in [parse_precipitation]:
    the body appends one row per entry of the map, with the keys of the map
    as periods, in the order of the map. *)
Theorem plain_record_rainfall_flattened :
  forall (loc rf : dict) (w : world precip_row),
    has_key loc "time" = false ->
    has_key loc "weatherElement" = false ->
    rainfall_of loc = JDict rf ->
    exists (new : list precip_row) (w' : world precip_row),
      precip_body clock (JDict loc) w = (Ok tt, w')
      /\ out w' = (out w ++ new)%list
      /\ map p_period new = map fst rf.
Proof.
  intros loc rf w Ht He Hrf.
  destruct (precip_date_returns loc w Ht He) as (d & w1 & Hd & Ho).
  unfold precip_body, bind at 1, lift at 1. rewrite location_name_value.
  unfold bind at 1. rewrite Hd, Hrf, precip_entries.
  eexists. eexists. split; [reflexivity|]. simpl. rewrite Ho.
  split; [reflexivity|]. rewrite map_map. reflexivity.
Qed.

(** ** The size of the output *)

Lemma obs_body_adds_at_most_one (loc : json) (w : world obs_row) :
  (List.length (out (snd (obs_body clock loc w))) <= S (List.length (out w)))%nat.
Proof.
  destruct (obs_body clock loc w) as [[[]|e] w'] eqn:E; simpl.
  - destruct loc; try (unfold obs_body, ret in E; inversion E; subst; lia).
    apply obs_body_ok in E.
    destruct E as (name & date_val & st & descr & w1 & _ & _ & _ & _ & ->). simpl.
    rewrite List.length_app. simpl. lia.
  - rewrite (obs_body_raise _ _ _ _ _ E). lia.
Qed.

(** X9.  [parse_locations] returns at most one row per entry of the record
    list it located. *)
Theorem at_most_one_row_per_record :
  forall (data : json) (now : nat) (locations : list json) (rows : list obs_row),
    located_obs data = Ok locations ->
    parse_locations clock data now = Ok rows ->
    (List.length rows <= List.length locations)%nat.
Proof.
  intros data now locations rows Hl. unfold parse_locations. rewrite Hl. simpl.
  intros H; inversion H; subst. clear H.
  assert (Hloop : forall l (w : world obs_row),
             (List.length (out (snd (for_each_try (obs_body clock) l w)))
              <= List.length (out w) + List.length l)%nat).
  { induction l as [|loc l IH]; intros w; simpl; [lia|].
    specialize (IH (snd (obs_body clock loc w))).
    pose proof (obs_body_adds_at_most_one loc w). lia. }
  specialize (Hloop locations {| out := []; ticks := now |}). simpl in Hloop. lia.
Qed.

Lemma precip_body_without_rainfall (loc : json) (w : world precip_row) :
  match loc with
  | JDict l => negb (is_dict (rainfall_of l))
  | _ => true
  end = true ->
  out (snd (precip_body clock loc w)) = out w.
Proof.
  intros Hrf. destruct (precip_body clock loc w) as [[[]|e] w'] eqn:E; simpl.
  - destruct loc; try (unfold precip_body, ret in E; inversion E; subst; reflexivity).
    apply precip_body_ok in E. destruct E as (name & date_val & w1 & _ & _ & ->). simpl.
    destruct (rainfall_of d); try apply app_nil_r. discriminate.
  - exact (precip_body_raise _ _ _ _ _ E).
Qed.

(** X10.  When no object of the located record list has a rainfall map
    that is an object, [parse_precipitation] returns the empty list, and
    does so whether or not the records fail. *)
Theorem no_rainfall_no_rows :
  forall (data : json) (now : nat) (locations : list json),
    located_precip data = Ok locations ->
    no_rainfall locations = true ->
    parse_precipitation clock data now = Ok [].
Proof.
  intros data now locations Hl Hrf. unfold parse_precipitation. rewrite Hl. simpl.
  f_equal.
  assert (Hloop : forall l (w : world precip_row),
             no_rainfall l = true ->
             out (snd (for_each_try (precip_body clock) l w)) = out w).
  { induction l as [|loc l IH]; intros w H; simpl; [reflexivity|].
    unfold no_rainfall in H. simpl in H. apply andb_true_iff in H. destruct H as [H1 H2].
    rewrite (IH _ H2). apply precip_body_without_rainfall. exact H1. }
  exact (Hloop locations _ Hrf).
Qed.

(** ** The optional fields of an observation row *)

Lemma py_str_of_value_nonempty (v : json) :
  none_or_empty v = false -> py_str v <> EmptyString.
Proof.
  intros H. apply nonempty_neq.
  destruct v as [|b|z|f|s|l|d]; simpl in *; try discriminate; try reflexivity.
  - destruct b; reflexivity.
  - destruct z; simpl; try reflexivity; apply string_of_nat_nonempty.
  - apply nonempty_neq. apply float_repr_nonempty.
  - destruct s; [discriminate | reflexivity].
Qed.

Lemma emit_present_nonempty (v : json) : present_nonempty (emit v).
Proof.
  unfold emit. destruct (none_or_empty v) eqn:E; simpl; [exact I|].
  exact (py_str_of_value_nonempty v E).
Qed.

(** X11.  In every row [parse_locations] returns, [min_temp], [max_temp]
    and [description] are each absent or a non-empty string: an empty
    string never reaches the storage step. *)
Theorem optional_fields_absent_or_nonempty :
  forall (data : json) (now : nat) (rows : list obs_row),
    parse_locations clock data now = Ok rows ->
    Forall (fun r => present_nonempty (min_temp r)
                     /\ present_nonempty (max_temp r)
                     /\ present_nonempty (description r)) rows.
Proof.
  intros data now rows. unfold parse_locations.
  destruct (located_obs data) as [locations|]; [|discriminate]. simpl.
  intros H; inversion H; subst. clear H.
  apply (for_each_try_invariant
           (Forall (fun r => present_nonempty (min_temp r)
                             /\ present_nonempty (max_temp r)
                             /\ present_nonempty (description r)))); [|constructor].
  intros loc w Hw.
  destruct (obs_body clock loc w) as [[[]|e] w'] eqn:E; simpl.
  - destruct loc; try (unfold obs_body, ret in E; inversion E; subst; exact Hw).
    apply obs_body_ok in E.
    destruct E as (name & date_val & st & descr & w1 & _ & _ & _ & _ & ->). simpl.
    apply Forall_app. split; [exact Hw|]. constructor; [|constructor].
    simpl. repeat split; apply emit_present_nonempty.
  - rewrite (obs_body_raise _ _ _ _ _ E). exact Hw.
Qed.

(** ** Documents without records *)

(** X12.  A document that is neither an object nor a non-empty list (null,
    a boolean, a number, a string, the empty list) gives no row and no
    exception in either extractor. *)
Theorem document_without_records :
  forall (data : json) (now : nat),
    is_dict data = false ->
    (forall x l, data <> JList (x :: l)) ->
    parse_locations clock data now = Ok []
    /\ parse_precipitation clock data now = Ok [].
Proof.
  intros data now Hd Hl.
  destruct data as [|b|z|f|s|l|d]; try discriminate; try (split; reflexivity).
  destruct l as [|x l]; [split; reflexivity|].
  exfalso. exact (Hl x l eq_refl).
Qed.

(** ** The storage step *)

Lemma insert_row_storable (conn : list weather_record * nat) (r : obs_row) :
  try_except (insert_row conn r) conn
  = if storable r then ((fst conn ++ [stored r])%list, S (snd conn)) else conn.
Proof.
  unfold insert_row, storable, stored.
  destruct (to_float (min_temp r)) as [minv|]; simpl; [|reflexivity].
  destruct (to_float (max_temp r)) as [maxv|]; simpl; reflexivity.
Qed.

Lemma insert_rows_from_filter (rows : list obs_row) :
  forall conn : list weather_record * nat,
    insert_rows_from conn rows
    = ((fst conn ++ map stored (filter storable rows))%list,
       (snd conn + List.length (filter storable rows))%nat).
Proof.
  induction rows as [|r rows IH]; intros conn; simpl.
  - rewrite app_nil_r, Nat.add_0_r. destruct conn; reflexivity.
  - rewrite IH, insert_row_storable. destruct (storable r); simpl.
    + rewrite <- app_assoc, Nat.add_succ_r. reflexivity.
    + reflexivity.
Qed.


Lemma insert_precip_rows_from_all (rows : list precip_row) :
  forall conn : list precip_record * nat,
    insert_precip_rows_from conn rows
    = ((fst conn ++ map stored_precip rows)%list, (snd conn + List.length rows)%nat).
Proof.
  induction rows as [|r rows IH]; intros conn; simpl.
  - rewrite app_nil_r, Nat.add_0_r. destruct conn; reflexivity.
  - rewrite IH. unfold insert_precip_row, to_float_precip, stored_precip.
    destruct (p_precipitation r); simpl;
      rewrite <- app_assoc, Nat.add_succ_r; reflexivity.
Qed.


(** ** [main] *)

Lemma main_cases (fetched : result json) (db : database) (now : nat) :
  main clock fetched db now
  = match fetched with
    | Raise _ => (Exited 1, db)
    | Ok data =>
        match parse_locations clock data now with
        | Raise e => (Raised e, db)
        | Ok [] => (Exited 1, db)
        | Ok rows =>
            let stored_weather :=
              {| weather := Some (rows_of (weather db)
                                  ++ map stored (filter storable rows))%list;
                 precipitation := Some (rows_of (precipitation db)) |} in
            match parse_precipitation clock data
                    (ticks_after_parse_locations clock data now) with
            | Raise e => (Raised e, stored_weather)
            | Ok precip_rows =>
                (Finished,
                 {| weather := weather stored_weather;
                    precipitation := Some (rows_of (precipitation db)
                                           ++ map stored_precip precip_rows)%list |})
            end
        end
    end.
Proof.
  unfold main. destruct fetched as [data|]; [|reflexivity].
  destruct (parse_locations clock data now) as [[|row rows]|]; try reflexivity.
  cbv zeta. unfold init_db. cbn [weather precipitation rows_of].
  unfold insert_rows. rewrite insert_rows_from_filter. cbn [fst snd].
  destruct (parse_precipitation clock data _) as [[|prow prows]|]; try reflexivity.
  - cbn [map]. rewrite app_nil_r. reflexivity.
  - cbn [weather precipitation rows_of]. unfold insert_precip_rows.
    rewrite insert_precip_rows_from_all. reflexivity.
Qed.

(** X15.  [main] never removes or changes a stored row: however it ends,
    each table of the database holds the rows it held before, followed by
    the rows of this run. *)
Theorem main_only_appends :
  forall (fetched : result json) (db : database) (now : nat),
    exists (new_weather : list weather_record) (new_precipitation : list precip_record),
      rows_of (weather (snd (main clock fetched db now)))
      = (rows_of (weather db) ++ new_weather)%list
      /\ rows_of (precipitation (snd (main clock fetched db now)))
         = (rows_of (precipitation db) ++ new_precipitation)%list.
Proof.
  intros fetched db now. rewrite main_cases.
  destruct fetched as [data|];
    [|exists [], []; split; simpl; rewrite app_nil_r; reflexivity].
  destruct (parse_locations clock data now) as [[|row rows]|];
    try (exists [], []; split; simpl; rewrite app_nil_r; reflexivity).
  cbv zeta.
  destruct (parse_precipitation clock data _) as [prows|]; simpl.
  - eexists. eexists. split; reflexivity.
  - eexists. exists []. split; [reflexivity | rewrite app_nil_r; reflexivity].
Qed.



(** X18.  [main] exits only with status 1, and then without touching the
    database: the fetch failed, or the document gave no observation row.
    In the latter case the precipitation rows of the document, if any, are
    not stored either. *)
Theorem main_exited :
  forall (fetched : result json) (db db' : database) (now : nat) (code : nat),
    main clock fetched db now = (Exited code, db') ->
    code = 1 /\ db' = db
    /\ (is_raise fetched = true
        \/ exists data, fetched = Ok data /\ parse_locations clock data now = Ok []).
Proof.
  intros fetched db db' now code. rewrite main_cases.
  destruct fetched as [data|].
  - destruct (parse_locations clock data now) as [[|row rows]|] eqn:E; try discriminate.
    + intros H; inversion H; subst. repeat split. right. exists data.
      split; [reflexivity | exact E].
    + cbv zeta. destruct (parse_precipitation clock data _); discriminate.
  - intros H; inversion H; subst. repeat split. left. reflexivity.
Qed.

End Further.

(** ** The precipitation viewer *)









Lemma dict_get_set {V : Type} (d : list (string * V)) (k p : string) (v : V) :
  dict_get (dict_set d k v) p = if String.eqb k p then Some v else dict_get d p.
Proof.
  induction d as [|[k' v'] d IH]; simpl.
  - reflexivity.
  - destruct (String.eqb k' k) eqn:Ek; simpl.
    + apply String.eqb_eq in Ek. subst k'. destruct (String.eqb k p); reflexivity.
    + destruct (String.eqb k' p) eqn:Ep.
      * destruct (String.eqb k p) eqn:Ekp; [|reflexivity].
        apply String.eqb_eq in Ep, Ekp. subst. rewrite String.eqb_refl in Ek.
        discriminate.
      * exact IH.
Qed.

Lemma dict_get_fold {V : Type} (recs : list (string * V)) (p : string) :
  forall d : list (string * V),
    dict_get (fold_left (fun d r => dict_set d (fst r) (snd r)) recs d) p
    = match find (fun r => String.eqb (fst r) p) (rev recs) with
      | Some r => Some (snd r)
      | None => dict_get d p
      end.
Proof.
  induction recs as [|r recs IH]; intros d; simpl; [reflexivity|].
  rewrite IH, find_snoc.
  destruct (find (fun r0 => String.eqb (fst r0) p) (rev recs)); [reflexivity|].
  rewrite dict_get_set. destruct (String.eqb (fst r) p); reflexivity.
Qed.

(** X20.  The chart of precipitation by period always has the nine
    canonical periods, in canonical order; the value shown for a period is
    that of the last record of the selection with that period, or none, and
    a record whose period is not canonical is not shown. *)
Theorem period_values_from_last_record :
  forall (V : Type) (recs : list (string * V)),
    period_values recs
    = map (fun p => option_map snd (find (fun r => String.eqb (fst r) p) (rev recs)))
          PERIOD_ORDER
    /\ List.length (period_values recs) = 9.
Proof.
  intros V recs. split; [|reflexivity].
  unfold period_values, val_map. apply map_ext. intros p.
  rewrite dict_get_fold. destruct (find _ (rev recs)); reflexivity.
Qed.

(** * Concrete documents

    The statements above, run on documents, with the decimal floats and a
    clock that stands still. *)

#[local] Existing Instance DecimalFloat.

(** C10: a string in the station list. *)
Lemma non_object_entries_skipped_witness :
  is_dict (JStr "junk") = false
  /\ obs_body fixed_clock (JStr "junk") start = (Ok tt, start)
  /\ precip_body fixed_clock (JStr "junk") start = (Ok tt, start)
  /\ for_each_try (obs_body fixed_clock) ([JDict taipei] ++ JStr "junk" :: [JDict forecast])%list start
     = for_each_try (obs_body fixed_clock) ([JDict taipei] ++ [JDict forecast])%list start
  /\ for_each_try (precip_body fixed_clock) ([JDict taipei] ++ JStr "junk" :: [JDict forecast])%list start
     = for_each_try (precip_body fixed_clock) ([JDict taipei] ++ [JDict forecast])%list start.
Proof.
  split; [reflexivity|].
  apply (non_object_entries_skipped fixed_clock (JStr "junk")
           [JDict taipei] [JDict forecast] start start).
  reflexivity.
Defined.


(** C9: the records above and an empty record, which takes both defaults. *)
Lemma location_and_date_never_empty_witness :
  parse_locations fixed_clock (JList [JDict taipei; JDict []; JDict forecast]) 0
  = Ok [{| location := "Taipei"; date := "2024-05-17T10:00:00+08:00";
           min_temp := None; max_temp := None; description := None |};
        {| location := "Unknown"; date := "2024-05-17T12:00:00";
           min_temp := None; max_temp := None; description := None |};
        {| location := "A"; date := "2024-05-17T12:00:00";
           min_temp := Some "18"; max_temp := None; description := Some "Rain" |}]
  /\ Forall well_formed_obs
       [{| location := "Taipei"; date := "2024-05-17T10:00:00+08:00";
           min_temp := None; max_temp := None; description := None |};
        {| location := "Unknown"; date := "2024-05-17T12:00:00";
           min_temp := None; max_temp := None; description := None |};
        {| location := "A"; date := "2024-05-17T12:00:00";
           min_temp := Some "18"; max_temp := None; description := Some "Rain" |}]
  /\ parse_precipitation fixed_clock (JList [JDict [("rainfall", JDict [("Now", JInt 2)])]]) 0
     = Ok [{| p_location := "Unknown"; p_date := "2024-05-17T12:00:00";
              p_period := "Now"; p_precipitation := Some (Dec false 2 0) |}]
  /\ Forall well_formed_precip
       [{| p_location := "Unknown"; p_date := "2024-05-17T12:00:00";
           p_period := "Now"; p_precipitation := Some (Dec false 2 0) |}]
  /\ truthy (get (@nil (string * json)) "StationName") = false
  /\ location_name_of (@nil (string * json)) = Ok (JStr "Unknown")
  /\ date_fallback fixed_clock (@nil (string * json)) JNull (@start obs_row)
     = (Ok (JStr "2024-05-17T12:00:00"), {| out := []; ticks := 1 |}).
Proof.
  pose proof (location_and_date_never_empty fixed_clock
                (JList [JDict taipei; JDict []; JDict forecast]) 0) as Hobs.
  pose proof (location_and_date_never_empty fixed_clock
                (JList [JDict [("rainfall", JDict [("Now", JInt 2)])]]) 0) as Hprecip.
  destruct Hobs as (Hobs & _ & Hname & Hdate).
  destruct Hprecip as (_ & Hprecip & _).
  split; [reflexivity|]. split; [apply Hobs; reflexivity|].
  split; [reflexivity|]. split; [apply Hprecip; reflexivity|].
  split; [reflexivity|].
  split; [apply Hname; reflexivity|].
  apply (Hdate obs_row [] JNull start); reflexivity.
Defined.

(** C8: three periods, the last of which [float] rejects. *)
Lemma rainfall_map_flattened_witness :
  location_name_of taipei = Ok (JStr "Taipei")
  /\ precip_date fixed_clock taipei start
     = (Ok (JStr "2024-05-17T10:00:00+08:00"), start)
  /\ rainfall_of taipei
     = JDict [("Past24hr", JDict [("Precipitation", JStr "3.5")]);
              ("Now", JDict [("Precipitation", JStr "0.0")]);
              ("Past1hr", JDict [("Precipitation", JStr "N/A")])]
  /\ precip_body fixed_clock (JDict taipei) start
     = (Ok tt,
        {| out := [{| p_location := "Taipei"; p_date := "2024-05-17T10:00:00+08:00";
                      p_period := "Past24hr"; p_precipitation := Some (Dec false 35 (-1)) |};
                   {| p_location := "Taipei"; p_date := "2024-05-17T10:00:00+08:00";
                      p_period := "Now"; p_precipitation := Some (Dec false 0 (-1)) |};
                   {| p_location := "Taipei"; p_date := "2024-05-17T10:00:00+08:00";
                      p_period := "Past1hr"; p_precipitation := None |}];
           ticks := 0 |})
  /\ List.length (out (snd (precip_body fixed_clock (JDict taipei) start))) = 3
  /\ resolved_precipitation (JStr "3.5") = JStr "3.5"
  /\ resolved_precipitation (JDict [("Precipitation", JStr "3.5")]) = JStr "3.5"
  /\ coerce (JStr "3.5") = Some (Dec false 35 (-1))
  /\ coerce (JStr "N/A") = None.
Proof.
  pose proof (rainfall_map_flattened fixed_clock taipei
                [("Past24hr", JDict [("Precipitation", JStr "3.5")]);
                 ("Now", JDict [("Precipitation", JStr "0.0")]);
                 ("Past1hr", JDict [("Precipitation", JStr "N/A")])]
                (JStr "Taipei") (JStr "2024-05-17T10:00:00+08:00") start start
                eq_refl eq_refl eq_refl)
    as (Hbody & Hlen & Hsub & Hobj & Hsome & Hnone).
  split; [reflexivity|]. split; [reflexivity|]. split; [reflexivity|].
  split; [exact Hbody|]. split; [exact Hlen|].
  split; [apply Hsub; reflexivity|].
  split; [apply Hobj; [reflexivity | left; reflexivity]|].
  split; [apply Hsome; reflexivity|].
  apply Hnone. right. reflexivity.
Defined.

(** C6: two elements for min_temp; the second is the one kept. *)
Lemma classification_last_match_wins_witness :
  lookup forecast "weatherElement" = Some (JList forecast_elements)
  /\ obs_body fixed_clock (JDict forecast) start
     = (Ok tt,
        {| out := [{| location := "A"; date := "2024-05-17T12:00:00";
                      min_temp := Some "18"; max_temp := None;
                      description := Some "Rain" |}];
           ticks := 1 |})
  /\ emit (last_value MinTemp forecast_elements) = Some "18"
  /\ emit (last_value MaxTemp forecast_elements) = None
  /\ (exists row : obs_row,
         [{| location := "A"; date := "2024-05-17T12:00:00";
             min_temp := Some "18"; max_temp := None;
             description := Some "Rain" |}] = ([] ++ [row])%list
         /\ min_temp row = emit (last_value MinTemp forecast_elements)
         /\ max_temp row = emit (last_value MaxTemp forecast_elements)
         /\ description row
            = emit (let d := last_value Description forecast_elements in
                    if truthy d then d
                    else py_or (first_available forecast
                                  ["description"; "weather"; "wx"; "parameterName"]) d)).
Proof.
  split; [reflexivity|]. split; [reflexivity|].
  split; [reflexivity|]. split; [reflexivity|].
  exact (proj1 (classification_last_match_wins fixed_clock forecast forecast_elements
                  start _ eq_refl eq_refl)).
Defined.

(** C4: a non-empty station wrapper beside a top-level [location] list. *)
Lemma locator_tries_heuristics_in_order_witness :
  records_location_listed (wrapped [JDict taipei]) = true
  /\ features_are_objects (wrapped [JDict taipei]) = true
  /\ locate_guarded (wrapped [JDict taipei]) = [JDict taipei]
  /\ located_obs (wrapped [JDict taipei]) = Ok (locate_guarded (wrapped [JDict taipei])).
Proof.
  split; [reflexivity|]. split; [reflexivity|]. split; [reflexivity|].
  apply (locator_tries_heuristics_in_order (wrapped [JDict taipei])); reflexivity.
Defined.

(** C4: an empty list is not a success.  With an empty station wrapper
    the locator returns the top-level list, not the wrapper's; with an empty
    [records] list it wraps the document. *)
Lemma empty_list_is_not_a_success :
  located_obs (wrapped []) = Ok [JDict [("locationName", JStr "A")]]
  /\ locate_spec (wrapped []) = []
  /\ located_obs (wrapped []) <> Ok (locate_spec (wrapped []))
  /\ located_obs (JDict [("records", JList [])]) = Ok [JDict [("records", JList [])]]
  /\ locate_spec (JDict [("records", JList [])]) = [].
Proof.
  split; [reflexivity|]. split; [reflexivity|]. split; [discriminate|].
  split; reflexivity.
Qed.

(** C5: a list of stations under [location]. *)
Lemma precipitation_locator_agrees_witness :
  wrapper_without_records (JDict [("location", JList [JDict taipei])]) = true
  /\ wraps_document (JDict [("location", JList [JDict taipei])]) = false
  /\ located_precip (JDict [("location", JList [JDict taipei])])
     = (if wraps_document (JDict [("location", JList [JDict taipei])])
        then Ok [] else located_obs (JDict [("location", JList [JDict taipei])])).
Proof.
  split; [reflexivity|]. split; [reflexivity|].
  apply (precipitation_locator_agrees (JDict [("location", JList [JDict taipei])])).
  reflexivity.
Defined.

(** C5: a document that is one station record; [parse_locations] takes it
    as its single record, [parse_precipitation] finds no record.  With a
    station wrapper beside a [records] list the two take different lists. *)
Lemma single_record_document_differs :
  located_obs (JDict taipei) = Ok [JDict taipei]
  /\ located_precip (JDict taipei) = Ok []
  /\ located_precip (JDict taipei) <> located_obs (JDict taipei)
  /\ located_obs wrapped_with_records = Ok [JDict taipei]
  /\ located_precip wrapped_with_records = Ok [JDict forecast].
Proof.
  split; [reflexivity|]. split; [reflexivity|]. split; [discriminate|].
  split; reflexivity.
Qed.

(** C6: the last description element has no value; the row takes the
    record-level [description], which is the value of no element. *)
Lemma description_not_from_last_element :
  parse_locations fixed_clock (JList [JDict forecast]) 0
  = Ok [{| location := "A"; date := "2024-05-17T12:00:00";
           min_temp := Some "18"; max_temp := None;
           description := Some "Rain" |}]
  /\ emit (last_value Description forecast_elements) = None
  /\ Some "Rain" <> emit (last_value Description forecast_elements).
Proof. split; [reflexivity|]. split; [reflexivity|]. discriminate. Qed.

(** C8: a rainfall map of one period in a record whose date resolution
    raises; no row is emitted. *)
Lemma faulting_record_emits_no_precipitation :
  rainfall_of bad_time = JDict [("Now", JDict [("Precipitation", JStr "1.0")])]
  /\ precip_body fixed_clock (JDict bad_time) start = (Raise TypeError, start)
  /\ parse_precipitation fixed_clock (JList [JDict bad_time]) 0 = Ok []
  /\ List.length (@nil precip_row) <> 1.
Proof.
  split; [reflexivity|]. split; [reflexivity|]. split; [reflexivity|]. discriminate.
Qed.

(** A numeric zero inside an object entry of the rainfall map comes out
    without precipitation, where the same zero as the entry itself is
    coerced. *)
Example numeric_zero_in_object_entry :
  parse_precipitation fixed_clock
    (JList [JDict [("RainfallElement",
                    JDict [("Now", JDict [("Precipitation", JInt 0)]);
                           ("Past1hr", JInt 0)])]]) 0
  = Ok [{| p_location := "Unknown"; p_date := "2024-05-17T12:00:00";
           p_period := "Now"; p_precipitation := None |};
        {| p_location := "Unknown"; p_date := "2024-05-17T12:00:00";
           p_period := "Past1hr"; p_precipitation := Some (Dec false 0 0) |}].
Proof. reflexivity. Qed.

(** C2: a forecast whose minimum temperature is not a number is parsed
    into a row, and the row is not inserted. *)
Lemma insert_rows_drops_unparsable_temperature_witness :
  parse_locations fixed_clock
    (JList [JDict [("locationName", JStr "A");
                   ("weatherElement",
                    JList [JDict [("elementName", JStr "MinT"); ("value", JStr "N/A")]])]]) 0
  = Ok [{| location := "A"; date := "2024-05-17T12:00:00";
           min_temp := Some "N/A"; max_temp := None; description := None |}]
  /\ (min_temp {| location := "A"; date := "2024-05-17T12:00:00";
                  min_temp := Some "N/A"; max_temp := None; description := None |}
      = Some "N/A"
      \/ max_temp {| location := "A"; date := "2024-05-17T12:00:00";
                     min_temp := Some "N/A"; max_temp := None; description := None |}
         = Some "N/A")
  /\ nonempty "N/A" = true
  /\ float_of_string "N/A" = None
  /\ insert_rows_from ([], 0)
       [{| location := "A"; date := "2024-05-17T12:00:00";
           min_temp := Some "N/A"; max_temp := None; description := None |}]
     = insert_rows_from ([], 0) []
  /\ insert_rows []
       [{| location := "A"; date := "2024-05-17T12:00:00";
           min_temp := Some "N/A"; max_temp := None; description := None |}]
     = ([], 0).
Proof.
  split; [reflexivity|]. split; [left; reflexivity|].
  split; [reflexivity|]. split; [reflexivity|].
  split; [|reflexivity].
  apply (insert_rows_drops_unparsable_temperature ([], 0)
           {| location := "A"; date := "2024-05-17T12:00:00";
              min_temp := Some "N/A"; max_temp := None; description := None |}
           [] "N/A"); [left; reflexivity | reflexivity | reflexivity].
Defined.

(** ** The examples of the specification *)

Example station_name_only :
  parse_locations fixed_clock (JList [JDict [("StationName", JStr "Taipei")]]) 0
  = Ok [{| location := "Taipei"; date := "2024-05-17T12:00:00";
           min_temp := None; max_temp := None; description := None |}].
Proof. reflexivity. Qed.

Example key_resolver_skips_empty :
  _get_first_available (JDict [("k1", JStr EmptyString); ("k2", JStr "5")]) ["k1"; "k2"]
  = Ok (JStr "5").
Proof. reflexivity. Qed.

Example rainfall_flattening :
  parse_precipitation fixed_clock
    (JList [JDict [("RainfallElement",
                    JDict [("Past24hr", JDict [("Precipitation", JStr "3.5")]);
                           ("Now", JDict [("Precipitation", JStr "0.0")])])]]) 0
  = Ok [{| p_location := "Unknown"; p_date := "2024-05-17T12:00:00";
           p_period := "Past24hr"; p_precipitation := Some (Dec false 35 (-1)) |};
        {| p_location := "Unknown"; p_date := "2024-05-17T12:00:00";
           p_period := "Now"; p_precipitation := Some (Dec false 0 (-1)) |}].
Proof. reflexivity. Qed.

Example element_keywords :
  parse_locations fixed_clock
    (JList [JDict [("weatherElement",
                    JList [JDict [("elementName", JStr "MinTemperature");
                                  ("value", JStr "18.2")];
                           JDict [("elementName", JStr "Wx"); ("value", JStr "Cloudy")]])]]) 0
  = Ok [{| location := "Unknown"; date := "2024-05-17T12:00:00";
           min_temp := Some "18.2"; max_temp := None; description := Some "Cloudy" |}].
Proof. reflexivity. Qed.

Example features_without_properties :
  located_obs (JDict [("features",
                       JList [JDict [("properties", JDict [("name", JStr "B")])];
                              JDict [("type", JStr "Feature")]])])
  = Ok [JDict [("name", JStr "B")]; JDict []].
Proof. reflexivity. Qed.

(** ** Further concrete runs *)

Lemma key_resolver_on_non_object_witness :
  is_dict (JStr "no startTime here") = false
  /\ _get_first_available (JStr "no startTime here") ["dataTime"; "startTime"]
     = Raise TypeError
  /\ is_dict (JList [JStr "a"]) = false
  /\ _get_first_available (JList [JStr "a"]) ["dataTime"; "startTime"] = Ok JNull.
Proof.
  split; [reflexivity|].
  split; [exact (key_resolver_on_non_object (JStr "no startTime here")
                   ["dataTime"; "startTime"] eq_refl)|].
  split; [reflexivity|].
  exact (key_resolver_on_non_object (JList [JStr "a"]) ["dataTime"; "startTime"] eq_refl).
Defined.

Lemma station_name_preferred_witness :
  lookup taipei "StationName" = Some (JStr "Taipei")
  /\ truthy (JStr "Taipei") = true
  /\ obs_body fixed_clock (JDict taipei) start
     = (Ok tt, snd (obs_body fixed_clock (JDict taipei) start))
  /\ (exists row : obs_row,
         out (snd (obs_body fixed_clock (JDict taipei) start)) = (out start ++ [row])%list
         /\ location row = py_str (JStr "Taipei"))
  /\ precip_body fixed_clock (JDict taipei) start
     = (Ok tt, snd (precip_body fixed_clock (JDict taipei) start))
  /\ (exists new : list precip_row,
         out (snd (precip_body fixed_clock (JDict taipei) start)) = (out start ++ new)%list
         /\ Forall (fun r => p_location r = py_str (JStr "Taipei")) new).
Proof.
  pose proof (station_name_preferred fixed_clock taipei (JStr "Taipei") eq_refl eq_refl)
    as [Hobs Hprecip].
  split; [reflexivity|]. split; [reflexivity|]. split; [reflexivity|].
  split; [apply Hobs; reflexivity|]. split; [reflexivity|].
  apply Hprecip; reflexivity.
Defined.

Lemma date_sources_ranked_differently_witness :
  lookup both_dates "time"
  = Some (JList (JDict [("startTime", JStr "2024-05-17T06:00:00")] :: []))
  /\ truthy (JStr "2024-05-17T06:00:00") = true
  /\ lookup both_dates "ObsTime"
     = Some (JDict [("DateTime", JStr "2024-05-17T10:00:00+08:00")])
  /\ obs_date fixed_clock both_dates start = (Ok (JStr "2024-05-17T06:00:00"), start)
  /\ precip_date fixed_clock both_dates start
     = (Ok (JStr "2024-05-17T10:00:00+08:00"), start).
Proof.
  split; [reflexivity|]. split; [reflexivity|]. split; [reflexivity|].
  apply (date_sources_ranked_differently fixed_clock both_dates
           [("startTime", JStr "2024-05-17T06:00:00")]
           [("DateTime", JStr "2024-05-17T10:00:00+08:00")]
           [] (JStr "2024-05-17T06:00:00") start start); reflexivity.
Defined.

Lemma plain_record_gives_one_row_witness :
  has_key taipei "time" = false
  /\ has_key taipei "weatherElement" = false
  /\ exists (row : obs_row) (w' : world obs_row),
       obs_body fixed_clock (JDict taipei) start = (Ok tt, w')
       /\ out w' = (out start ++ [row])%list
       /\ min_temp row = None
       /\ max_temp row = None
       /\ description row
          = emit (py_or (first_available taipei
                           ["description"; "weather"; "wx"; "parameterName"]) JNull).
Proof.
  split; [reflexivity|]. split; [reflexivity|].
  apply (plain_record_gives_one_row fixed_clock taipei start); reflexivity.
Defined.

Lemma plain_record_rainfall_flattened_witness :
  has_key taipei "time" = false
  /\ has_key taipei "weatherElement" = false
  /\ rainfall_of taipei
     = JDict [("Past24hr", JDict [("Precipitation", JStr "3.5")]);
              ("Now", JDict [("Precipitation", JStr "0.0")]);
              ("Past1hr", JDict [("Precipitation", JStr "N/A")])]
  /\ exists (new : list precip_row) (w' : world precip_row),
       precip_body fixed_clock (JDict taipei) start = (Ok tt, w')
       /\ out w' = (out start ++ new)%list
       /\ map p_period new = ["Past24hr"; "Now"; "Past1hr"].
Proof.
  split; [reflexivity|]. split; [reflexivity|]. split; [reflexivity|].
  exact (plain_record_rainfall_flattened fixed_clock taipei
           [("Past24hr", JDict [("Precipitation", JStr "3.5")]);
            ("Now", JDict [("Precipitation", JStr "0.0")]);
            ("Past1hr", JDict [("Precipitation", JStr "N/A")])]
           start eq_refl eq_refl eq_refl).
Defined.

Lemma at_most_one_row_per_record_witness :
  located_obs (JList [JDict taipei; JStr "junk"; JDict bad_time])
  = Ok [JDict taipei; JStr "junk"; JDict bad_time]
  /\ parse_locations fixed_clock (JList [JDict taipei; JStr "junk"; JDict bad_time]) 0
     = Ok [{| location := "Taipei"; date := "2024-05-17T10:00:00+08:00";
              min_temp := None; max_temp := None; description := None |}]
  /\ (1 <= 3)%nat.
Proof.
  split; [reflexivity|]. split; [reflexivity|].
  apply (at_most_one_row_per_record fixed_clock
           (JList [JDict taipei; JStr "junk"; JDict bad_time]) 0
           [JDict taipei; JStr "junk"; JDict bad_time]
           [{| location := "Taipei"; date := "2024-05-17T10:00:00+08:00";
               min_temp := None; max_temp := None; description := None |}]);
    reflexivity.
Defined.

Lemma no_rainfall_no_rows_witness :
  located_precip (JList [JDict forecast; JStr "junk"; JDict bad_name])
  = Ok [JDict forecast; JStr "junk"; JDict bad_name]
  /\ no_rainfall [JDict forecast; JStr "junk"; JDict bad_name] = true
  /\ parse_precipitation fixed_clock (JList [JDict forecast; JStr "junk"; JDict bad_name]) 0
     = Ok [].
Proof.
  split; [reflexivity|]. split; [reflexivity|].
  apply (no_rainfall_no_rows fixed_clock _ 0 [JDict forecast; JStr "junk"; JDict bad_name]);
    reflexivity.
Defined.

Lemma optional_fields_absent_or_nonempty_witness :
  parse_locations fixed_clock (JList [JDict forecast]) 0
  = Ok [{| location := "A"; date := "2024-05-17T12:00:00";
           min_temp := Some "18"; max_temp := None; description := Some "Rain" |}]
  /\ Forall (fun r => present_nonempty (min_temp r)
                      /\ present_nonempty (max_temp r)
                      /\ present_nonempty (description r))
       [{| location := "A"; date := "2024-05-17T12:00:00";
           min_temp := Some "18"; max_temp := None; description := Some "Rain" |}].
Proof.
  split; [reflexivity|].
  apply (optional_fields_absent_or_nonempty fixed_clock (JList [JDict forecast]) 0).
  reflexivity.
Defined.

Lemma document_without_records_witness :
  is_dict (JStr "service unavailable") = false
  /\ parse_locations fixed_clock (JStr "service unavailable") 0 = Ok []
  /\ parse_precipitation fixed_clock (JStr "service unavailable") 0 = Ok [].
Proof.
  split; [reflexivity|].
  apply (document_without_records fixed_clock (JStr "service unavailable") 0);
    [reflexivity | discriminate].
Defined.



Lemma main_exited_witness :
  parse_precipitation fixed_clock (JList [JDict stranded_rainfall]) 0
  = Ok [{| p_location := "Penghu"; p_date := "2024-05-17T12:00:00";
           p_period := "Now"; p_precipitation := Some (Dec false 25 (-1)) |}]
  /\ main fixed_clock (Ok (JList [JDict stranded_rainfall])) no_tables 0
     = (Exited 1, no_tables)
  /\ 1 = 1
  /\ no_tables = no_tables
  /\ (is_raise (Ok (JList [JDict stranded_rainfall])) = true
      \/ exists data,
           Ok (JList [JDict stranded_rainfall]) = Ok data
           /\ parse_locations fixed_clock data 0 = Ok []).
Proof.
  split; [reflexivity|]. split; [reflexivity|].
  apply (main_exited fixed_clock (Ok (JList [JDict stranded_rainfall])) no_tables
           no_tables 0 1).
  reflexivity.
Defined.
